(** * VPilot drive GUI: the worker's drive loop (driveGUI.py)

    A shallow embedding of [Worker.work], [Worker.abort], [Model.run], the
    signal wiring of [MyWidget.start_thread] and the command-line parser of
    the [__main__] block, with the properties of the drive loop proved
    about it.

    The worker talks to three things it does not own: the wall clock
    ([time.time]), the DeepGTAV client ([Client], [sendMessage],
    [recvMessage], [close]) and the Qt event queue ([app.processEvents]).
    Their answers are inputs of the model ([Env]); what the worker does is
    recorded as a trace of [Event]s, in program order.

    What can raise: [Client(...)], [sendMessage], [recvMessage],
    [frame2numpy] and the subscripts [message['frame']] and [commands[i]].
    [close()] and the emission of a signal do not raise.  The while loop
    need not end (the clock is an input), so the loop takes fuel; a run
    that uses it up has the outcome [OutOfFuel]. *)

From Stdlib Require Import List String ZArith QArith Bool Arith Lia.
From Stdlib Require Import Strings.Byte Strings.Ascii.
Import ListNotations.
Local Close Scope Q_scope.
Local Open Scope string_scope.
Local Open Scope list_scope.

Set Implicit Arguments.

(** ** Python values *)

(** The values [argparse] stores in the namespace: the [default=] given to
    [add_argument], or the command-line string. *)
Inductive PyVal : Type :=
| VStr (s : string)
| VInt (z : Z).

Definition is_int (v : PyVal) : bool :=
  match v with VInt _ => true | VStr _ => false end.

(** The exceptions the loop can meet.  [ConnectionError] and [DecodeError]
    come from the client library; the other three are raised by Python
    itself on a subscript. *)
Inductive Exc : Type :=
| ConnectionError
| DecodeError
| KeyError (k : string)
| TypeError
| IndexError.

(** [args]: the namespace built by [parser.parse_args()]. *)
Record Namespace : Type := mkNamespace {
  host : PyVal;
  port : PyVal
}.

(** ** Messages of the DeepGTAV protocol (deepgtav.messages) *)

Record Scenario : Type := mkScenario { drivingMode : Z }.

(** Python floats occur only as the literals [1.0] and [0.0] and as clock
    readings; they are modelled as exact rationals (no rounding). *)
Inductive Message : Type :=
| Start (scenario : Scenario)
| Commands (throttle brake steering : Q)
| Stop.

(** What [recvMessage] hands back: [None] or a dictionary whose values are
    raw byte strings. *)
Definition Dict : Type := list (string * list byte).

Inductive Received : Type :=
| PyNone
| PyDict (d : Dict).

Fixpoint dict_get (d : Dict) (k : string) : option (list byte) :=
  match d with
  | [] => None
  | (k', v) :: d' => if String.eqb k k' then Some v else dict_get d' k
  end.

(** [message[k]] *)
Definition getitem (message : Received) (k : string) : Exc + list byte :=
  match message with
  | PyNone => inl TypeError
  | PyDict d =>
      match dict_get d k with
      | Some v => inr v
      | None => inl (KeyError k)
      end
  end.

(** [commands[i]] on a Python list. *)
Definition index (commands : list Q) (i : nat) : Exc + Q :=
  match nth_error commands i with
  | Some x => inr x
  | None => inl IndexError
  end.

(** ** The stub controller *)

Module Model.
(** [class Model: def run(self, frame): return [1.0, 0.0, 0.0]] *)
Definition run {Image : Type} (frame : Image) : list Q :=
  [1%Q; 0%Q; 0%Q]. (* throttle, brake, steering *)
End Model.

(** ** Signals, events and the environment *)

(** A decoded frame after [image.tolist()]: height x width x channel. *)
Definition ImageList : Type := list (list (list Z)).

(** The text given to [sig_msg]; the two format strings of the source. *)
Inductive UserMessage : Type :=
| RunningWorker (id : Z) (thread_name : string) (thread_id : Z)
| NotifiedToAbort (id : Z).

(** The four signals of [Worker].  [sig_step] carries ['step ' +
    str(time.time())]: the clock reading stands for the string. *)
Inductive Signal : Type :=
| sig_step (id : Z) (now : Q)
| sig_done (id : Z)
| sig_msg (m : UserMessage)
| sig_image (image : ImageList).

(** One entry per operation the worker completes. *)
Inductive Event : Type :=
| NewClient (ip port : PyVal)      (* Client(ip=..., port=...) *)
| Sent (m : Message)               (* client.sendMessage(m) *)
| Recv (m : Received)              (* client.recvMessage() *)
| Decide (commands : list Q)       (* model.run(image) *)
| Emit (s : Signal)                (* signal.emit(...) *)
| Closed                           (* client.close() *)
| Printed (e : Exc).               (* print(args) in the exception hook *)

(** What the environment answers during one pass through the loop body.
    Each call of the body is made at most once per pass, in a fixed order,
    so the answers are gathered per pass. *)
Record Cycle : Type := mkCycle {
  guard_time : Q;                  (* time.time() in the while test *)
  abort_queued : bool;             (* processEvents() runs a queued abort *)
  recv_result : Exc + Received;    (* client.recvMessage() *)
  step_time : Q;                   (* time.time() in the sig_step text *)
  send_result : option Exc         (* client.sendMessage(Commands(...)) *)
}.

Record Env : Type := mkEnv {
  thread_name : string;            (* QThread.currentThread().objectName() *)
  thread_id : Z;                   (* int(QThread.currentThreadId()) *)
  connect : PyVal -> PyVal -> option Exc;   (* Client(ip, port) *)
  start_result : option Exc;       (* sendMessage(Start(...)) *)
  start_time : Q;                  (* time.time() before the loop *)
  cycle : nat -> Cycle;            (* the i-th pass through the loop *)
  stop_result : option Exc         (* sendMessage(Stop()) *)
}.

(** ** The worker *)

Record Worker : Type := mkWorker {
  w_id : Z;                        (* self.__id *)
  w_abort : bool;                  (* self.__abort *)
  w_args : Namespace;              (* self.args *)
  w_client : option (PyVal * PyVal)  (* self.client, by its address *)
}.

(** [Worker.__init__] *)
Definition Worker_init (id : Z) (args : Namespace) : Worker :=
  {| w_id := id; w_abort := false; w_args := args; w_client := None |}.

(** ** A monad for the worker: state, trace, exceptions and fuel *)

Inductive Outcome (A : Type) : Type :=
| Returned (a : A)
| Raised (e : Exc)
| OutOfFuel.
Arguments Raised {A} e.
Arguments OutOfFuel {A}.

Record Run (A : Type) : Type := mkRun {
  outcome : Outcome A;
  worker : Worker;
  trace : list Event
}.

Definition M (A : Type) : Type := Worker -> Run A.

Definition ret {A} (a : A) : M A :=
  fun w => mkRun (Returned a) w [].

(** Carry on after a run: with its value if it returned, not at all if it
    raised or was cut off. *)
Definition and_then {A B} (r : Run A) (f : A -> M B) : Run B :=
  match r with
  | mkRun (Returned a) w1 tr1 =>
      match f a w1 with
      | mkRun o w2 tr2 => mkRun o w2 (tr1 ++ tr2)
      end
  | mkRun (Raised e) w1 tr1 => mkRun (Raised e) w1 tr1
  | mkRun OutOfFuel w1 tr1 => mkRun OutOfFuel w1 tr1
  end.

Definition bind {A B} (m : M A) (f : A -> M B) : M B :=
  fun w => and_then (m w) f.

Definition raise {A} (e : Exc) : M A :=
  fun w => mkRun (Raised e) w [].

Definition out_of_fuel {A} : M A :=
  fun w => mkRun OutOfFuel w [].

Definition log (e : Event) : M unit :=
  fun w => mkRun (Returned tt) w [e].

Definition get : M Worker :=
  fun w => mkRun (Returned w) w [].

Definition put (w : Worker) : M unit :=
  fun _ => mkRun (Returned tt) w [].

(** Lift a result that is a value or an exception. *)
Definition lift {A} (r : Exc + A) : M A :=
  match r with
  | inl e => raise e
  | inr a => ret a
  end.

Declare Scope worker_scope.
Delimit Scope worker_scope with worker.
Notation "x <- m ;; k" := (bind m (fun x => k))
  (at level 61, m at next level, right associativity) : worker_scope.
Notation "m ;; k" := (bind m (fun _ => k))
  (at level 61, right associativity) : worker_scope.
Local Open Scope worker_scope.

(** ** Time *)

Definition Qltb (a b : Q) : bool :=
  (Qnum a * Zpos (Qden b) <? Qnum b * Zpos (Qden a))%Z.

(** [80*3600] *)
Definition eighty_hours : Q := inject_Z (80 * 3600).

(** ** Worker.work and Worker.abort *)

Section WorkerCode.

(** The decoded frame (a numpy array) and the two library functions that
    touch it: [deepgtav.messages.frame2numpy] and [ndarray.tolist]. *)
Variable Image : Type.
Variable frame2numpy : list byte -> nat * nat -> Exc + Image.
Variable tolist : Image -> ImageList.

Variable env : Env.

Definition emit (s : Signal) : M unit := log (Emit s).

(** [self.client = Client(ip=..., port=...)] *)
Definition new_client (ip port : PyVal) : M unit :=
  match connect env ip port with
  | Some e => raise e
  | None =>
      w <- get ;;
      put {| w_id := w_id w; w_abort := w_abort w; w_args := w_args w;
             w_client := Some (ip, port) |} ;;
      log (NewClient ip port)
  end.

(** [self.client.sendMessage(m)], with the environment's answer. *)
Definition sendMessage (answer : option Exc) (m : Message) : M unit :=
  match answer with
  | Some e => raise e
  | None => log (Sent m)
  end.

(** [self.client.recvMessage()], with the environment's answer. *)
Definition recvMessage (answer : Exc + Received) : M Received :=
  message <- lift answer ;;
  log (Recv message) ;;
  ret message.

(** [self.client.close()] *)
Definition close : M unit := log Closed.

(** [model.run(image)] *)
Definition model_run (image : Image) : M (list Q) :=
  let commands := Model.run image in
  log (Decide commands) ;;
  ret commands.

(** [Worker.abort] *)
Definition abort : M unit :=
  w <- get ;;
  emit (sig_msg (NotifiedToAbort (w_id w))) ;;
  put {| w_id := w_id w; w_abort := true; w_args := w_args w;
         w_client := w_client w |}.

(** [app.processEvents()]: while [work] runs, the event loop of the
    worker's thread is blocked, and this call is where a queued [abort] is
    run (the docstring of [work]). *)
Definition processEvents (c : Cycle) : M unit :=
  if abort_queued c then abort else ret tt.

(** The body of the while loop, lines 74 to 84. *)
Definition iteration (c : Cycle) : M unit :=
  processEvents c ;;
  message <- recvMessage (recv_result c) ;;
  frame <- lift (getitem message "frame") ;;
  image <- lift (frame2numpy frame (320, 160)%nat) ;;
  commands <- model_run image ;;
  w <- get ;;
  emit (sig_step (w_id w) (step_time c)) ;;
  emit (sig_image (tolist image)) ;;
  throttle <- lift (index commands 0) ;;
  brake <- lift (index commands 1) ;;
  steering <- lift (index commands 2) ;;
  sendMessage (send_result c) (Commands throttle brake steering).

(** [time.time() < stoptime and (not self.__abort)] *)
Definition loop_test (stoptime : Q) (c : Cycle) (w : Worker) : bool :=
  Qltb (guard_time c) stoptime && negb (w_abort w).

(** The while loop, from its [i]-th test on. *)
Fixpoint drive_loop (fuel : nat) (stoptime : Q) (i : nat) : M unit :=
  match fuel with
  | O => out_of_fuel
  | S fuel' =>
      w <- get ;;
      if loop_test stoptime (cycle env i) w then
        iteration (cycle env i) ;;
        drive_loop fuel' stoptime (S i)
      else ret tt
  end.

(** What follows the loop, lines 88 to 91. *)
Definition shutdown : M unit :=
  sendMessage (stop_result env) Stop ;;
  close ;;
  w <- get ;;
  emit (sig_done (w_id w)).

(** What precedes the loop, lines 49 to 71. *)
Definition startup : M Q :=
  w <- get ;;
  emit (sig_msg (RunningWorker (w_id w) (thread_name env) (thread_id env))) ;;
  new_client (host (w_args w)) (port (w_args w)) ;;
  let scenario := mkScenario (-1) in (* manual driving *)
  sendMessage (start_result env) (Start scenario) ;;
  ret (start_time env + eighty_hours)%Q.

(** [Worker.work] *)
Definition work (fuel : nat) : M unit :=
  stoptime <- startup ;;
  drive_loop fuel stoptime 0 ;;
  shutdown.

(** [sys.excepthook = trap_exc_during_debug]: [print(args)]. *)
Definition trap_exc_during_debug (e : Exc) : M unit := log (Printed e).

(** A slot run by the thread's event loop: an exception that leaves the
    slot is handed to [sys.excepthook]. *)
Definition run_slot (slot : M unit) : M unit :=
  fun w =>
    match slot w with
    | mkRun (Raised e) w1 tr1 =>
        match trap_exc_during_debug e w1 with
        | mkRun o w2 tr2 => mkRun o w2 (tr1 ++ tr2)
        end
    | r => r
    end.

End WorkerCode.

(** ** The presentation layer: MyWidget *)

Module MyWidget.

Section Rendering.

(** What lines 187 to 191 of [on_image] make of the list they are given:
    the pixmap that numpy ([np.array], [astype(np.uint8)], the unpacking of
    the shape), cv2 ([cvtColor]) and Qt ([QImage], [QPixmap.fromImage])
    build from it, or [None] when one of them raises. *)
Variable Pixmap : Type.
Variable render : ImageList -> option Pixmap.

Record t : Type := mk {
  button_start_enabled : bool;
  button_stop_enabled : bool;
  label : option Pixmap            (* the pixmap set on the label *)
}.

(** [MyWidget.__init__]: a fresh button is enabled; the stop button is
    disabled at once. *)
Definition init : t :=
  {| button_start_enabled := true; button_stop_enabled := false;
     label := None |}.

(** [start_thread], the widget's side: the buttons are switched and the
    worker is [Worker(0, self.args)]. *)
Definition start_thread (g : t) (args : Namespace) : t * Worker :=
  ({| button_start_enabled := false; button_stop_enabled := true;
      label := label g |},
   Worker_init 0 args).

Definition on_worker_step (g : t) (worker_id : Z) (data : Q) : t := g.

Definition on_worker_done (g : t) (worker_id : Z) : t :=
  {| button_start_enabled := true; button_stop_enabled := false;
     label := label g |}.

(** [on_image]: [setPixmap] is reached only when the pixmap could be
    built; an exception ends the slot before it (and goes to the hook),
    leaving the widget as it was. *)
Definition on_image (g : t) (image : ImageList) : t :=
  match render image with
  | Some pix =>
      {| button_start_enabled := button_start_enabled g;
         button_stop_enabled := button_stop_enabled g;
         label := Some pix |}
  | None => g
  end.

(** The connections made in [start_thread]: [sig_step], [sig_done] and
    [sig_image] have a slot; the connection of [sig_msg] is commented
    out, so its emissions reach nothing. *)
Definition deliver (g : t) (s : Signal) : t :=
  match s with
  | sig_step id data => on_worker_step g id data
  | sig_done id => on_worker_done g id
  | sig_image image => on_image g image
  | sig_msg _ => g
  end.

(** The widget after the signals of a trace have been delivered. *)
Definition handle (g : t) (e : Event) : t :=
  match e with
  | Emit s => deliver g s
  | _ => g
  end.

Definition after (g : t) (tr : list Event) : t := fold_left handle tr g.

End Rendering.

Arguments init {Pixmap}.

End MyWidget.

(** ** The command line: the parser of the __main__ block *)

Module Argparse.

Inductive Dest : Type := dest_host | dest_port.

(** One [add_argument] call: its option strings, its destination and its
    [default=].  Neither call gives a [type=], so a value from the command
    line is stored as the string it is. *)
Record Argument : Type := mkArgument {
  flags : list string;
  dest : Dest;
  default : PyVal
}.

Definition parser : list Argument :=
  [ mkArgument ["-l"; "--host"] dest_host (VStr "localhost");
    mkArgument ["-p"; "--port"] dest_port (VInt 8000) ].

Definition mem (s : string) (l : list string) : bool :=
  existsb (String.eqb s) l.

Definition find_argument (tok : string) : option Argument :=
  find (fun a => mem tok (flags a)) parser.

Definition default_of (d : Dest) : PyVal :=
  match find (fun a => match dest a, d with
                       | dest_host, dest_host | dest_port, dest_port => true
                       | _, _ => false
                       end) parser with
  | Some a => default a
  | None => VStr ""
  end.

Definition defaults : Namespace :=
  {| host := default_of dest_host; port := default_of dest_port |}.

Definition store (ns : Namespace) (d : Dest) (v : PyVal) : Namespace :=
  match d with
  | dest_host => {| host := v; port := port ns |}
  | dest_port => {| host := host ns; port := v |}
  end.

Definition dashed (tok : string) : bool :=
  match tok with
  | String "-"%char _ => true
  | _ => false
  end.

Inductive Result : Type :=
| Parsed (ns : Namespace)
| Exits                      (* help, or a usage error: SystemExit *)
| Unmodelled.                (* a spelling this model does not cover *)

(** [parser.parse_args()] on [sys.argv[1:]], for command lines that spell
    every option as its exact option string followed by a value that does
    not begin with a dash.  The other spellings argparse accepts
    ([--host=h], [-lh], unambiguous prefixes, dashed values) give
    [Unmodelled]. *)
Fixpoint parse_from (ns : Namespace) (argv : list string) : Result :=
  match argv with
  | [] => Parsed ns
  | tok :: rest =>
      if mem tok ["-h"; "--help"] then Exits
      else
        match find_argument tok with
        | Some a =>
            match rest with
            | [] => Exits
            | value :: rest' =>
                if dashed value then Unmodelled
                else parse_from (store ns (dest a) (VStr value)) rest'
            end
        | None => if dashed tok then Unmodelled else Exits
        end
  end.

Definition parse_args (argv : list string) : Result :=
  parse_from defaults argv.

(** The value typed for an option: reading the command line as pairs of
    an option string and its value, the value of the last pair whose
    option string is one of [flags]; [None] when there is no such pair. *)
Fixpoint typed_value (flags argv : list string) : option string :=
  match argv with
  | tok :: value :: rest =>
      match typed_value flags rest with
      | Some v => Some v
      | None => if mem tok flags then Some value else None
      end
  | _ => None
  end.

End Argparse.

(** ** Reading traces *)

Definition is_recv (e : Event) : bool :=
  match e with Recv _ => true | _ => false end.

Definition is_decide (e : Event) : bool :=
  match e with Decide _ => true | _ => false end.

Definition is_step (e : Event) : bool :=
  match e with Emit (sig_step _ _) => true | _ => false end.

Definition is_frame (e : Event) : bool :=
  match e with Emit (sig_image _) => true | _ => false end.

Definition is_command (e : Event) : bool :=
  match e with Sent (Commands _ _ _) => true | _ => false end.

Definition is_start (e : Event) : bool :=
  match e with Sent (Start _) => true | _ => false end.

Definition is_stop (e : Event) : bool :=
  match e with Sent Stop => true | _ => false end.

Definition is_closed (e : Event) : bool :=
  match e with Closed => true | _ => false end.

Definition is_done (e : Event) : bool :=
  match e with Emit (sig_done _) => true | _ => false end.

Definition count (p : Event -> bool) (tr : list Event) : nat :=
  List.length (filter p tr).

(** The events of a pass that belong to the receive/decide/notify/send
    cycle, as opposed to what happens between passes. *)
Definition in_cycle (e : Event) : bool :=
  is_recv e || is_decide e || is_step e || is_frame e || is_command e.

(** Where a pass stands. *)
Inductive Phase : Type :=
| AtTest          (* between passes *)
| GotMessage
| GotCommands
| CommandSent
| StepEmitted
| FrameEmitted.

(** The order of the source: receive, decide, sig_step, sig_image, send. *)
Definition code_order (p : Phase) (e : Event) : option Phase :=
  match p with
  | AtTest => if is_recv e then Some GotMessage
              else if in_cycle e then None else Some AtTest
  | GotMessage => if is_decide e then Some GotCommands else None
  | GotCommands => if is_step e then Some StepEmitted else None
  | StepEmitted => if is_frame e then Some FrameEmitted else None
  | FrameEmitted => if is_command e then Some AtTest else None
  | CommandSent => None
  end.

(** The order the specification words: receive, decide, send, and only then
    the notifications onStep and onFrame. *)
Definition spec_order (p : Phase) (e : Event) : option Phase :=
  match p with
  | AtTest => if is_recv e then Some GotMessage
              else if in_cycle e then None else Some AtTest
  | GotMessage => if is_decide e then Some GotCommands else None
  | GotCommands => if is_command e then Some CommandSent else None
  | CommandSent => if is_step e then Some StepEmitted else None
  | StepEmitted => if is_frame e then Some AtTest else None
  | FrameEmitted => None
  end.

(** Run an order over a trace; [None] when the trace breaks it. *)
Fixpoint follows (order : Phase -> Event -> option Phase) (p : Phase)
    (tr : list Event) : option Phase :=
  match tr with
  | [] => Some p
  | e :: tr' =>
      match order p e with
      | Some q => follows order q tr'
      | None => None
      end
  end.

(** What the loop can leave in a trace: the events of the cycle and the
    notice [abort] gives when [processEvents] runs it. *)
Definition is_abort_notice (e : Event) : bool :=
  match e with Emit (sig_msg (NotifiedToAbort _)) => true | _ => false end.

Definition loop_event (e : Event) : bool := in_cycle e || is_abort_notice e.

(** The three kinds of event the pairing of frames and commands is about. *)
Inductive Kind : Type := KRecv | KFrame | KCommand.

Definition kind_of (e : Event) : list Kind :=
  match e with
  | Recv _ => [KRecv]
  | Emit (sig_image _) => [KFrame]
  | Sent (Commands _ _ _) => [KCommand]
  | _ => []
  end.

Definition kinds (tr : list Event) : list Kind := flat_map kind_of tr.

Fixpoint cycles (n : nat) (pattern : list Kind) : list Kind :=
  match n with
  | O => []
  | S n' => pattern ++ cycles n' pattern
  end.

(** What lines 88 to 91 leave in the trace when the stop message can be
    sent: the stop message, the close, [sig_done]. *)
Definition shutdown_events (id : Z) : list Event :=
  [Sent Stop; Closed; Emit (sig_done id)].

(** What lines 49 to 65 leave in the trace when nothing raises. *)
Definition startup_events (env : Env) (w : Worker) : list Event :=
  [Emit (sig_msg (RunningWorker (w_id w) (thread_name env) (thread_id env)));
   NewClient (host (w_args w)) (port (w_args w));
   Sent (Start (mkScenario (-1)))].

(** [app.processEvents()] ran the queued [abort]. *)
Definition aborted (w : Worker) : Worker :=
  {| w_id := w_id w; w_abort := true; w_args := w_args w;
     w_client := w_client w |}.

(** [self.client] has been assigned. *)
Definition connected (w : Worker) : Worker :=
  {| w_id := w_id w; w_abort := w_abort w; w_args := w_args w;
     w_client := Some (host (w_args w), port (w_args w)) |}.

(** A run with an earlier trace put in front. *)
Definition prepend {A} (tr : list Event) (r : Run A) : Run A :=
  mkRun (outcome r) (worker r) (tr ++ trace r).

Section Passes.

Variable Image : Type.
Variable frame2numpy : list byte -> nat * nat -> Exc + Image.
Variable tolist : Image -> ImageList.

(** A pass in which the test lets the loop go on and the receive, the
    decoding and the send all succeed. *)
Record GoodPass (stoptime : Q) (c : Cycle) (message : Received)
    (image : Image) : Prop := {
  pass_in_time : Qltb (guard_time c) stoptime = true;
  pass_recv : recv_result c = inr message;
  pass_frame : exists frame, getitem message "frame" = inr frame /\
                             frame2numpy frame (320, 160)%nat = inr image;
  pass_send : send_result c = None
}.

(** What such a pass leaves in the trace. *)
Definition pass_events (id : Z) (c : Cycle) (message : Received)
    (image : Image) : list Event :=
  [Recv message; Decide [1; 0; 0]%Q;
   Emit (sig_step id (step_time c)); Emit (sig_image (tolist image));
   Sent (Commands 1 0 0)].

Definition abort_events (id : Z) (c : Cycle) : list Event :=
  if abort_queued c then [Emit (sig_msg (NotifiedToAbort id))] else [].

(** The trace of passes [i], ..., [i + n - 1]. *)
Fixpoint loop_events (id : Z) (cycle : nat -> Cycle)
    (messages : nat -> Received) (images : nat -> Image) (i n : nat)
    : list Event :=
  match n with
  | O => []
  | S n' =>
      abort_events id (cycle i) ++
      pass_events id (cycle i) (messages i) (images i) ++
      loop_events id cycle messages images (S i) n'
  end.

End Passes.

(** [stoptime = time.time() + 80*3600] *)
Definition stoptime_of (env : Env) : Q := (start_time env + eighty_hours)%Q.

(** A run of the loop, or of a part of it, started on worker [w]: it keeps
    the worker's id and arguments, leaves only loop events, and these in
    the order of the source; unless it raised, it stops between passes. *)
Record Orderly (p : Phase) (w : Worker) (r : Run unit) : Prop := {
  orderly_id : w_id (worker r) = w_id w;
  orderly_args : w_args (worker r) = w_args w;
  orderly_events : forallb loop_event (trace r) = true;
  orderly_phase : follows code_order AtTest (trace r) = Some p;
  orderly_end : match outcome r with Raised _ => True | _ => p = AtTest end
}.

(** The worker after [n] passes in which an abort was queued in the last
    pass at the earliest. *)
Definition after_passes (cycle : nat -> Cycle) (n : nat) (w : Worker) : Worker :=
  match n with
  | O => w
  | S k => if abort_queued (cycle k) then aborted w else w
  end.

(** In the order of the source the frames notified run ahead of the
    commands sent by the one frame of the pass under way. *)
Definition owed (p : Phase) : nat :=
  match p with FrameEmitted => 1 | _ => 0 end.

(** The shapes a trace of [work] can have, by the outcome of [work]. *)
Inductive WorkTrace (env : Env) (w : Worker)
  : Outcome unit -> list Event -> Prop :=
| wt_connect e :
    connect env (host (w_args w)) (port (w_args w)) = Some e ->
    WorkTrace env w (Raised e)
      [Emit (sig_msg (RunningWorker (w_id w) (thread_name env)
                        (thread_id env)))]
| wt_start e :
    connect env (host (w_args w)) (port (w_args w)) = None ->
    start_result env = Some e ->
    WorkTrace env w (Raised e)
      [Emit (sig_msg (RunningWorker (w_id w) (thread_name env)
                        (thread_id env)));
       NewClient (host (w_args w)) (port (w_args w))]
| wt_unfinished o body p :
    connect env (host (w_args w)) (port (w_args w)) = None ->
    start_result env = None ->
    o <> Returned tt ->
    forallb loop_event body = true ->
    follows code_order AtTest body = Some p ->
    WorkTrace env w o (startup_events env w ++ body)
| wt_finished body :
    connect env (host (w_args w)) (port (w_args w)) = None ->
    start_result env = None ->
    forallb loop_event body = true ->
    follows code_order AtTest body = Some AtTest ->
    WorkTrace env w (Returned tt)
      (startup_events env w ++ body ++ shutdown_events (w_id w)).

(** A trace in which at most one Start is sent and every receive and
    every command comes after it. *)
Fixpoint start_first (started : bool) (tr : list Event) : bool :=
  match tr with
  | [] => true
  | e :: tr' =>
      if is_start e then negb started && start_first true tr'
      else if is_recv e || is_command e then started && start_first started tr'
      else start_first started tr'
  end.

(** ** Example environments *)

Module Example.

(** A stand-in for the decoder: one row of pixels, one channel, and a
    decoding error on an empty payload. *)
Definition frame2numpy (frame : list byte) (frameSize : nat * nat)
  : Exc + ImageList :=
  match frame with
  | [] => inl DecodeError
  | _ => inr [map (fun b => [Z.of_N (Byte.to_N b)]) frame]
  end.

Definition tolist (image : ImageList) : ImageList := image.

Definition message (b : byte) : Received := PyDict [("frame", [b])].

Definition image (b : byte) : ImageList := [[[Z.of_N (Byte.to_N b)]]].

(** A pass that succeeds at clock reading [t]. *)
Definition good (t : Q) (abort : bool) (b : byte) : Cycle :=
  mkCycle t abort (inr (message b)) t None.

(** A pass in which the receive raises. *)
Definition lost (t : Q) : Cycle :=
  mkCycle t false (inl ConnectionError) t None.

(** A pass in which the command cannot be sent. *)
Definition unsent (t : Q) (b : byte) : Cycle :=
  mkCycle t false (inr (message b)) t (Some ConnectionError).

Definition server (cycle : nat -> Cycle) : Env :=
  mkEnv "thread_0" 1 (fun _ _ => None) None 1000 cycle None.

(** Frames F1..F3, then the connection is lost. *)
Definition three_then_lost : Env :=
  server (fun i => if (i <? 3)%nat then good 1001 false x01 else lost 1002).

(** The first command cannot be sent. *)
Definition first_send_fails : Env :=
  server (fun i => unsent 1001 x01).

(** Stop is pressed during the third pass; frames keep coming. *)
Definition stop_pressed : Env :=
  server (fun i => good 1001 (i =? 2)%nat x01).

(** The clock has jumped past the stop time before the first test. *)
Definition clock_jumped : Env :=
  server (fun i => good 400000 false x01).

(** Three frames, then the stop time is reached. *)
Definition three_then_deadline : Env :=
  server (fun i => if (i <? 3)%nat then good 1001 false x01 else good 400000 false x01).

(** Nobody listens at the address. *)
Definition refused : Env :=
  mkEnv "thread_0" 1 (fun _ _ => Some ConnectionError) None 1000
        (fun i => good 1001 false x01) None.

(** Every frame of the examples is the one byte 01. *)
Definition messages (i : nat) : Received := message x01.

Definition images (i : nat) : ImageList := image x01.

Definition args : Namespace := mkNamespace (VStr "localhost") (VInt 8000).

(** A stand-in for what [on_image] makes of a list, for three-channel
    images (height x width x 3): every value cast to uint8 and the
    channels swapped from BGR to RGB.  Any other list counts as one on
    which the slot raises. *)
Definition swap_channels (pixel : list Z) : option (list Z) :=
  match pixel with
  | [b; g; r] => Some [r mod 256; g mod 256; b mod 256]%Z
  | _ => None
  end.

Definition all_some {A : Type} (l : list (option A)) : option (list A) :=
  fold_right (fun o acc => match o, acc with
                           | Some x, Some xs => Some (x :: xs)
                           | _, _ => None
                           end) (Some []) l.

Definition render (image : ImageList) : option ImageList :=
  match image with
  | [] => None
  | first :: _ =>
      if (0 <? List.length first)%nat &&
         forallb (fun row => (List.length row =? List.length first)%nat) image
      then all_some (map (fun row => all_some (map swap_channels row)) image)
      else None
  end.

(** The widget of the examples, fresh. *)
Definition widget : MyWidget.t ImageList := MyWidget.init.

Definition worker0 : Worker := snd (MyWidget.start_thread widget args).

End Example.

(** ** More readings of traces *)

Definition is_printed (e : Event) : bool :=
  match e with Printed _ => true | _ => false end.

(** The events a run of [work] on worker [w] can leave in its trace. *)
Inductive WorkEvent (env : Env) (w : Worker) : Event -> Prop :=
| we_running :
    WorkEvent env w
      (Emit (sig_msg (RunningWorker (w_id w) (thread_name env) (thread_id env))))
| we_client : WorkEvent env w (NewClient (host (w_args w)) (port (w_args w)))
| we_start : WorkEvent env w (Sent (Start (mkScenario (-1))))
| we_abort : WorkEvent env w (Emit (sig_msg (NotifiedToAbort (w_id w))))
| we_recv m : WorkEvent env w (Recv m)
| we_decide : WorkEvent env w (Decide [1; 0; 0]%Q)
| we_step now : WorkEvent env w (Emit (sig_step (w_id w) now))
| we_image image : WorkEvent env w (Emit (sig_image image))
| we_command : WorkEvent env w (Sent (Commands 1 0 0))
| we_stop : WorkEvent env w (Sent Stop)
| we_closed : WorkEvent env w Closed
| we_done : WorkEvent env w (Emit (sig_done (w_id w))).

(** ** More example environments *)

Module Faults.

(** A telemetry message that carries no frame. *)
Definition telemetry : Received := PyDict [("speed", [x10])].

(** Two frames, then a message without the ['frame'] entry. *)
Definition frame_missing : Env :=
  Example.server
    (fun i => if (i <? 2)%nat then Example.good 1001 false x01
              else mkCycle 1001 false (inr telemetry) 1001 None).

(** Three frames, then the stop time is reached, and the stop message
    cannot be sent. *)
Definition stop_unsent : Env :=
  mkEnv "thread_0" 1 (fun _ _ => None) None 1000
        (cycle Example.three_then_deadline) (Some ConnectionError).

End Faults.

(** ** An example with three-channel frames *)

Module Camera.

(** A stand-in for the decoder that makes one row of three-channel pixels
    of the payload. *)
Fixpoint pixels (frame : list byte) : option (list (list Z)) :=
  match frame with
  | [] => Some []
  | b :: g :: r :: rest =>
      match pixels rest with
      | Some l => Some ([Z.of_N (Byte.to_N b); Z.of_N (Byte.to_N g);
                         Z.of_N (Byte.to_N r)] :: l)
      | None => None
      end
  | _ => None
  end.

Definition frame2numpy (frame : list byte) (frameSize : nat * nat)
  : Exc + ImageList :=
  match frame, pixels frame with
  | _ :: _, Some row => inr [row]
  | _, _ => inl DecodeError
  end.

(** Four pixels. *)
Definition frame : list byte :=
  [x01; x02; x03; x04; x05; x06; x07; x08; x09; x0a; x0b; x0c].

Definition messages (i : nat) : Received := PyDict [("frame", frame)].

Definition images (i : nat) : ImageList :=
  [[[1; 2; 3]; [4; 5; 6]; [7; 8; 9]; [10; 11; 12]]]%Z.

Definition pixmap : ImageList :=
  [[[3; 2; 1]; [6; 5; 4]; [9; 8; 7]; [12; 11; 10]]]%Z.

(** Stop is pressed during the third pass; frames keep coming. *)
Definition stop_pressed : Env :=
  Example.server
    (fun i => mkCycle 1001 (i =? 2)%nat (inr (messages i)) 1001 None).

End Camera.

(** * Properties *)

Lemma Qltb_ge (a b : Q) : Qltb a b = false <-> (b <= a)%Q.
Proof. unfold Qltb, Qle. rewrite Z.ltb_ge. reflexivity. Qed.

Lemma follows_app order p tr1 tr2 :
  follows order p (tr1 ++ tr2) =
  match follows order p tr1 with
  | Some q => follows order q tr2
  | None => None
  end.
Proof.
  revert p. induction tr1 as [|e tr1 IH]; intros p; simpl; [reflexivity|].
  destruct (order p e); [apply IH | reflexivity].
Qed.

Lemma count_app p tr1 tr2 : count p (tr1 ++ tr2) = count p tr1 + count p tr2.
Proof. unfold count. rewrite filter_app, length_app. reflexivity. Qed.

Lemma kinds_app tr1 tr2 : kinds (tr1 ++ tr2) = kinds tr1 ++ kinds tr2.
Proof. unfold kinds. apply flat_map_app. Qed.

Section WorkerFacts.

Variable Image : Type.
Variable frame2numpy : list byte -> nat * nat -> Exc + Image.
Variable tolist : Image -> ImageList.
Variable env : Env.

Local Abbreviation iteration := (iteration frame2numpy tolist).
Local Abbreviation drive_loop := (drive_loop frame2numpy tolist env).
Local Abbreviation work := (work frame2numpy tolist env).
Local Abbreviation GoodPass := (GoodPass frame2numpy).
Local Abbreviation pass_events := (pass_events tolist).
Local Abbreviation loop_events := (loop_events tolist).

(** Split on every answer of the environment met in the goal. *)
Ltac answer_cases :=
  repeat (cbn;
    match goal with
    | |- context [abort_queued ?c] => destruct (abort_queued c)
    | |- context [recv_result ?c] => destruct (recv_result c)
    | |- context [getitem ?m ?k] => destruct (getitem m k)
    | |- context [frame2numpy ?f ?s] => destruct (frame2numpy f s)
    | |- context [send_result ?c] => destruct (send_result c)
    end).

(** *** One pass *)

Lemma iteration_good stoptime c message image w :
  GoodPass stoptime c message image ->
  iteration c w =
  mkRun (Returned tt) (if abort_queued c then aborted w else w)
        (abort_events (w_id w) c ++ pass_events (w_id w) c message image).
Proof.
  intros [_ Hrecv (frame & Hframe & Hdecode) Hsend].
  unfold iteration, processEvents, recvMessage, abort_events.
  destruct (abort_queued c); unfold bind, and_then; cbn; rewrite Hrecv; cbn; rewrite Hframe; cbn;
    rewrite Hdecode; cbn; rewrite Hsend; cbn; reflexivity.
Qed.

Lemma and_then_returned {A B} (f : A -> M B) a w1 tr1 :
  and_then (mkRun (Returned a) w1 tr1) f = prepend tr1 (f a w1).
Proof. unfold and_then, prepend. destruct (f a w1); reflexivity. Qed.

Lemma bind_run {A B} (m : M A) (f : A -> M B) w a w1 tr1 :
  m w = mkRun (Returned a) w1 tr1 ->
  bind m f w = prepend tr1 (f a w1).
Proof.
  intros Hm. unfold bind, and_then, prepend. rewrite Hm.
  destruct (f a w1); reflexivity.
Qed.

Lemma drive_loop_S fuel stoptime i w :
  drive_loop (S fuel) stoptime i w =
  if loop_test stoptime (cycle env i) w
  then bind (iteration (cycle env i))
            (fun _ => drive_loop fuel stoptime (S i)) w
  else mkRun (Returned tt) w [].
Proof.
  simpl drive_loop. unfold bind at 1. unfold get, and_then.
  destruct (loop_test stoptime (cycle env i) w); [|reflexivity].
  destruct (bind _ _ w); reflexivity.
Qed.

Lemma drive_loop_exit fuel stoptime i w :
  loop_test stoptime (cycle env i) w = false ->
  drive_loop (S fuel) stoptime i w = mkRun (Returned tt) w [].
Proof.
  intros Htest. rewrite drive_loop_S, Htest. reflexivity.
Qed.

Lemma drive_loop_step fuel stoptime i w message image :
  w_abort w = false ->
  GoodPass stoptime (cycle env i) message image ->
  drive_loop (S fuel) stoptime i w =
  prepend (abort_events (w_id w) (cycle env i) ++
           pass_events (w_id w) (cycle env i) message image)
          (drive_loop fuel stoptime (S i)
             (if abort_queued (cycle env i) then aborted w else w)).
Proof.
  intros Hflag Hpass.
  assert (Htest : loop_test stoptime (cycle env i) w = true).
  { unfold loop_test. rewrite (pass_in_time Hpass), Hflag. reflexivity. }
  rewrite drive_loop_S, Htest.
  apply (@bind_run unit unit _ (fun _ => drive_loop fuel stoptime (S i))
           w tt _ _ (iteration_good w Hpass)).
Qed.

Lemma drive_loop_raises fuel stoptime i w e :
  loop_test stoptime (cycle env i) w = true ->
  recv_result (cycle env i) = inl e ->
  drive_loop (S fuel) stoptime i w =
  mkRun (Raised e) (if abort_queued (cycle env i) then aborted w else w)
        (abort_events (w_id w) (cycle env i)).
Proof.
  intros Htest Hrecv. rewrite drive_loop_S, Htest.
  unfold iteration, processEvents, recvMessage, abort_events, bind, and_then.
  destruct (abort_queued (cycle env i)); cbn; rewrite Hrecv; reflexivity.
Qed.

(** Passes [i], ..., [i + n - 1] are good and no abort is queued in them. *)
Lemma drive_loop_passes messages images stoptime n : forall fuel i w,
  w_abort w = false ->
  (forall j, j < n ->
     GoodPass stoptime (cycle env (i + j)) (messages (i + j)) (images (i + j)) /\
     abort_queued (cycle env (i + j)) = false) ->
  drive_loop (n + fuel) stoptime i w =
  prepend (loop_events (w_id w) (cycle env) messages images i n)
          (drive_loop fuel stoptime (i + n) w).
Proof.
  induction n as [|n IH]; intros fuel i w Hflag Hgood.
  - rewrite Nat.add_0_r. unfold prepend. simpl.
    destruct (drive_loop fuel stoptime i w); reflexivity.
  - destruct (Hgood 0 (Nat.lt_0_succ n)) as [Hpass Hquiet].
    rewrite Nat.add_0_r in Hpass, Hquiet.
    simpl Nat.add.
    rewrite (@drive_loop_step (n + fuel) stoptime i w _ _ Hflag Hpass).
    rewrite Hquiet. rewrite IH; [|assumption|].
    + unfold prepend. simpl. rewrite <- Nat.add_succ_comm.
      rewrite <- !app_assoc. reflexivity.
    + intros j Hj. rewrite Nat.add_succ_comm. apply Hgood. lia.
Qed.

(** *** Any pass, whatever the environment answers *)

Lemma iteration_orderly c w : exists p, Orderly p w (iteration c w).
Proof.
  unfold iteration, processEvents, recvMessage, abort, bind, and_then.
  answer_cases; eexists; (split; cbn; [reflexivity .. | exact I || reflexivity]).
Qed.

Lemma orderly_prepend p w w1 tr1 r2 :
  Orderly AtTest w (mkRun (Returned tt) w1 tr1) ->
  Orderly p w1 r2 ->
  Orderly p w (prepend tr1 r2).
Proof.
  intros [Hid Hargs Hev Hph _] [Hid2 Hargs2 Hev2 Hph2 Hend2].
  cbn in *. split; cbn.
  - congruence.
  - congruence.
  - rewrite forallb_app, Hev, Hev2. reflexivity.
  - rewrite follows_app, Hph. exact Hph2.
  - exact Hend2.
Qed.

Lemma drive_loop_orderly stoptime fuel : forall i w,
  exists p, Orderly p w (drive_loop fuel stoptime i w).
Proof.
  induction fuel as [|fuel IH]; intros i w.
  - exists AtTest. split; reflexivity.
  - rewrite drive_loop_S.
    destruct (loop_test stoptime (cycle env i) w).
    + destruct (iteration_orderly (cycle env i) w) as [p Hpass].
      unfold bind.
      destruct (iteration (cycle env i) w) as [[[]|e|] w1 tr1] eqn:Hrun.
      * assert (p = AtTest) by apply (orderly_end Hpass). subst p.
        destruct (IH (S i) w1) as [q Hrest].
        exists q. rewrite and_then_returned.
        apply (orderly_prepend Hpass Hrest).
      * exists p. exact Hpass.
      * exists p. exact Hpass.
    + exists AtTest. split; reflexivity.
Qed.

(** *** The whole of work *)

Lemma startup_eq w :
  startup env w =
  match connect env (host (w_args w)) (port (w_args w)) with
  | Some e =>
      mkRun (Raised e) w
        [Emit (sig_msg (RunningWorker (w_id w) (thread_name env)
                          (thread_id env)))]
  | None =>
      match start_result env with
      | Some e =>
          mkRun (Raised e) (connected w)
            [Emit (sig_msg (RunningWorker (w_id w) (thread_name env)
                              (thread_id env)));
             NewClient (host (w_args w)) (port (w_args w))]
      | None => mkRun (Returned (stoptime_of env)) (connected w) (startup_events env w)
      end
  end.
Proof.
  unfold startup, new_client, sendMessage, bind, and_then. cbn.
  destruct (connect env _ _); [reflexivity|]. cbn.
  destruct (start_result env); reflexivity.
Qed.

Lemma shutdown_eq w :
  shutdown env w =
  match stop_result env with
  | Some e => mkRun (Raised e) w []
  | None => mkRun (Returned tt) w (shutdown_events (w_id w))
  end.
Proof.
  unfold shutdown, sendMessage, bind, and_then.
  destruct (stop_result env); reflexivity.
Qed.

Lemma work_eq fuel w :
  work fuel w =
  and_then (startup env w)
    (fun stoptime w1 =>
       and_then (drive_loop fuel stoptime 0 w1) (fun _ => shutdown env)).
Proof. reflexivity. Qed.

Lemma work_trace fuel w :
  WorkTrace env w (outcome (work fuel w)) (trace (work fuel w)) /\
  w_id (worker (work fuel w)) = w_id w.
Proof.
  rewrite work_eq, startup_eq.
  destruct (connect env _ _) as [e|] eqn:Hconn.
  { split; [apply wt_connect; assumption | reflexivity]. }
  destruct (start_result env) as [e|] eqn:Hstart.
  { split; [apply wt_start; assumption | reflexivity]. }
  rewrite and_then_returned.
  destruct (drive_loop_orderly (stoptime_of env) fuel 0 (connected w))
    as [p Hloop].
  destruct (drive_loop fuel (stoptime_of env) 0 (connected w))
    as [[[]|e|] w1 body].
  - destruct Hloop as [Hid _ Hev Hph Hend]. cbn in Hid, Hev, Hph, Hend.
    subst p. rewrite and_then_returned, shutdown_eq.
    destruct (stop_result env) as [e|]; cbn.
    + rewrite app_nil_r. split; [|exact Hid].
      apply wt_unfinished with (p := AtTest); try assumption. discriminate.
    + rewrite Hid. split; [|reflexivity].
      apply wt_finished; assumption.
  - destruct Hloop as [Hid _ Hev Hph _]. cbn in *. split; [|exact Hid].
    apply wt_unfinished with (p := p); try assumption. discriminate.
  - destruct Hloop as [Hid _ Hev Hph _]. cbn in *. split; [|exact Hid].
    apply wt_unfinished with (p := p); try assumption. discriminate.
Qed.

End WorkerFacts.

(** *** Counting in traces *)

Lemma count_cons p e tr :
  count p (e :: tr) = (if p e then 1 else 0) + count p tr.
Proof. unfold count. simpl. destruct (p e); reflexivity. Qed.

(** What no loop event is. *)
Lemma loop_events_count p body :
  (forall e, loop_event e = true -> p e = false) ->
  forallb loop_event body = true ->
  count p body = 0.
Proof.
  intros Hp. induction body as [|e body IH]; intros Hall; [reflexivity|].
  simpl in Hall. apply andb_true_iff in Hall as [He Hall].
  rewrite count_cons, (Hp e He), (IH Hall). reflexivity.
Qed.

Ltac by_event :=
  let e := fresh "e" in
  intros e; destruct e as [? ?|[]| | |[]| |]; cbn; congruence.

Lemma loop_event_not_start e : loop_event e = true -> is_start e = false.
Proof. revert e. by_event. Qed.

Lemma loop_event_not_stop e : loop_event e = true -> is_stop e = false.
Proof. revert e. by_event. Qed.

Lemma loop_event_not_closed e : loop_event e = true -> is_closed e = false.
Proof. revert e. by_event. Qed.

Lemma loop_event_not_done e : loop_event e = true -> is_done e = false.
Proof. revert e. by_event. Qed.

Lemma code_order_balance tr : forall p q,
  follows code_order p tr = Some q ->
  count is_frame tr + owed p = count is_command tr + owed q.
Proof.
  induction tr as [|e tr IH]; intros p q H; simpl in H.
  - injection H as <-. reflexivity.
  - rewrite !count_cons.
    destruct (code_order p e) as [p'|] eqn:Hstep; [|discriminate].
    specialize (IH _ _ H).
    destruct p; destruct e as [? ?|[]| | |[]| |]; cbn in Hstep;
      try discriminate; injection Hstep as <-; cbn in *; lia.
Qed.

(** *** Runs of good passes *)

Section GoodPasses.

Variable Image : Type.
Variable frame2numpy : list byte -> nat * nat -> Exc + Image.
Variable tolist : Image -> ImageList.
Variable env : Env.
Variable messages : nat -> Received.
Variable images : nat -> Image.

Local Abbreviation drive_loop := (drive_loop frame2numpy tolist env).
Local Abbreviation GoodPass := (GoodPass frame2numpy).
Local Abbreviation pass_events := (pass_events tolist).
Local Abbreviation loop_events := (loop_events tolist).

Lemma loop_events_snoc id n : forall i,
  loop_events id (cycle env) messages images i (S n) =
  loop_events id (cycle env) messages images i n ++
  abort_events id (cycle env (i + n)) ++
  pass_events id (cycle env (i + n)) (messages (i + n)) (images (i + n)).
Proof.
  induction n as [|n IH]; intros i.
  - cbn [loop_events app]. rewrite Nat.add_0_r, app_nil_r. reflexivity.
  - change (loop_events id (cycle env) messages images i (S (S n)))
      with (abort_events id (cycle env i) ++
            pass_events id (cycle env i) (messages i) (images i) ++
            loop_events id (cycle env) messages images (S i) (S n)).
    rewrite IH. simpl loop_events at 2.
    rewrite Nat.add_succ_comm, <- !app_assoc. reflexivity.
Qed.

Lemma loop_events_all id n : forall i,
  forallb loop_event (loop_events id (cycle env) messages images i n) = true.
Proof.
  induction n as [|n IH]; intros i; [reflexivity|].
  cbn [loop_events]. rewrite !forallb_app, IH. unfold abort_events.
  destruct (abort_queued (cycle env i)); reflexivity.
Qed.

Lemma loop_events_kinds id n : forall i,
  kinds (loop_events id (cycle env) messages images i n) =
  cycles n [KRecv; KFrame; KCommand].
Proof.
  induction n as [|n IH]; intros i; [reflexivity|].
  cbn [loop_events]. rewrite !kinds_app, IH. unfold abort_events.
  destruct (abort_queued (cycle env i)); reflexivity.
Qed.

Lemma loop_events_commands id n : forall i,
  count is_command (loop_events id (cycle env) messages images i n) = n.
Proof.
  induction n as [|n IH]; intros i; [reflexivity|].
  cbn [loop_events]. rewrite !count_app, IH. unfold abort_events.
  destruct (abort_queued (cycle env i)); reflexivity.
Qed.

Lemma loop_events_frames id n : forall i,
  count is_frame (loop_events id (cycle env) messages images i n) = n.
Proof.
  induction n as [|n IH]; intros i; [reflexivity|].
  cbn [loop_events]. rewrite !count_app, IH. unfold abort_events.
  destruct (abort_queued (cycle env i)); reflexivity.
Qed.

(** [n] good passes, the abort being queued in the last of them at the
    earliest. *)
Lemma drive_loop_run stoptime n fuel w :
  w_abort w = false ->
  (forall i, i < n ->
     GoodPass stoptime (cycle env i) (messages i) (images i)) ->
  (forall i, S i < n -> abort_queued (cycle env i) = false) ->
  drive_loop (n + fuel) stoptime 0 w =
  prepend (loop_events (w_id w) (cycle env) messages images 0 n)
          (drive_loop fuel stoptime n (after_passes (cycle env) n w)).
Proof.
  intros Hflag Hgood Hquiet. destruct n as [|k].
  - unfold prepend. simpl. destruct (drive_loop fuel stoptime 0 w); reflexivity.
  - replace (S k + fuel) with (k + S fuel) by lia.
    rewrite (@drive_loop_passes Image frame2numpy tolist env messages images
               stoptime k (S fuel) 0 w Hflag).
    + simpl Nat.add.
      rewrite (@drive_loop_step Image frame2numpy tolist env fuel stoptime k w
                 (messages k) (images k) Hflag (Hgood k (Nat.lt_succ_diag_r k))).
      rewrite loop_events_snoc. unfold prepend. simpl.
      rewrite <- !app_assoc. reflexivity.
    + intros j Hj. simpl. split; [apply Hgood; lia | apply Hquiet; lia].
Qed.

End GoodPasses.

(** *** Start comes first *)

Lemma start_first_true_app tr1 tr2 :
  start_first true (tr1 ++ tr2) = start_first true tr1 && start_first true tr2.
Proof.
  induction tr1 as [|e tr1 IH]; [reflexivity|].
  simpl. destruct (is_start e); [reflexivity|].
  destruct (is_recv e || is_command e); simpl; exact IH.
Qed.

Lemma start_first_loop body :
  forallb loop_event body = true -> start_first true body = true.
Proof.
  induction body as [|e body IH]; intros Hall; [reflexivity|].
  simpl in Hall. apply andb_true_iff in Hall as [He Hall].
  simpl. rewrite (loop_event_not_start e He), (IH Hall).
  destruct (is_recv e || is_command e); reflexivity.
Qed.

Lemma start_first_prefix pre e post : forall started,
  start_first started (pre ++ e :: post) = true ->
  is_recv e = true \/ is_command e = true ->
  count is_start pre + (if started then 1 else 0) = 1.
Proof.
  intros started H He.
  assert (Hns : is_start e = false).
  { destruct He as [He|He]; destruct e as [? ?|[]| | |[]| |];
      cbn in *; congruence. }
  assert (Hrc : is_recv e || is_command e = true).
  { destruct He as [-> | ->]; [reflexivity | apply orb_true_r]. }
  revert started H. induction pre as [|x pre IH]; intros started H.
  - simpl in H. rewrite Hns, Hrc in H.
    apply andb_true_iff in H as [-> _]. reflexivity.
  - simpl in H. rewrite count_cons.
    destruct (is_start x).
    + apply andb_true_iff in H as [Hb H]. apply negb_true_iff in Hb. subst.
      specialize (IH true H). cbv iota in IH |- *. lia.
    + destruct (is_recv x || is_command x).
      * apply andb_true_iff in H as [-> H]. apply (IH true H).
      * apply (IH started H).
Qed.

(** * The drive loop, property by property *)

Section DriveLoop.

Variable Image : Type.
Variable frame2numpy : list byte -> nat * nat -> Exc + Image.
Variable tolist : Image -> ImageList.
Variable env : Env.
Variable Pixmap : Type.
Variable render : ImageList -> option Pixmap.

Local Abbreviation drive_loop := (drive_loop frame2numpy tolist env).
Local Abbreviation work := (work frame2numpy tolist env).
Local Abbreviation GoodPass := (GoodPass frame2numpy).
Local Abbreviation pass_events := (pass_events tolist).
Local Abbreviation loop_events := (loop_events tolist).

Lemma work_follows fuel w :
  exists q, follows code_order AtTest (trace (work fuel w)) = Some q /\
            (outcome (work fuel w) = Returned tt -> q = AtTest).
Proof.
  destruct (work_trace frame2numpy tolist env fuel w) as [H _].
  remember (outcome (work fuel w)) as o. remember (trace (work fuel w)) as tr.
  clear Heqo Heqtr.
  destruct H as [e ?|e ? ?|o body p ? ? Ho _ Hph|body ? ? _ Hph].
  - exists AtTest. split; [reflexivity | discriminate].
  - exists AtTest. split; [reflexivity | discriminate].
  - exists p. split; [|intros ->; contradiction].
    rewrite follows_app. exact Hph.
  - exists AtTest. split; [|reflexivity].
    rewrite follows_app. cbn [startup_events follows code_order is_recv in_cycle
      is_decide is_step is_frame is_command orb].
    rewrite follows_app, Hph. reflexivity.
Qed.

(** C1, as the code has it: in every execution of [work] the operations
    of each pass occur in the order receive, decide, notify ([sig_step],
    then [sig_image]), send; the observer is notified before the command
    of that frame is sent, so no command is ever sent for a frame the
    observer has not been given. *)
Theorem C1_receive_decide_notify_send fuel w :
  exists q,
    follows code_order AtTest (trace (work fuel w)) = Some q /\
    (outcome (work fuel w) = Returned tt -> q = AtTest) /\
    count is_command (trace (work fuel w)) <= count is_frame (trace (work fuel w)).
Proof.
  destruct (work_follows fuel w) as (q & Hq & Hend).
  exists q. repeat split; try assumption.
  pose proof (code_order_balance _ _ Hq) as Hbal. cbn in Hbal. lia.
Qed.

(** C8: running [abort] once [work] is over changes nothing the widget
    can see.  It emits only [sig_msg], which has no slot connected; the
    widget is as it was; no further [sig_done] is emitted, so there is at
    most one, and exactly one when [work] returned.  A second [abort]
    leaves the worker as the first did. *)
Theorem C8_abort_after_work_is_unseen fuel w (g : MyWidget.t Pixmap) :
  outcome (run_slot abort (worker (work fuel w))) = Returned tt /\
  trace (run_slot abort (worker (work fuel w))) =
    [Emit (sig_msg (NotifiedToAbort (w_id w)))] /\
  MyWidget.after render g
    (trace (work fuel w) ++
     trace (run_slot abort (worker (work fuel w)))) =
  MyWidget.after render g (trace (work fuel w)) /\
  count is_done (trace (work fuel w) ++
                 trace (run_slot abort (worker (work fuel w)))) =
  count is_done (trace (work fuel w)) /\
  count is_done (trace (work fuel w)) <= 1 /\
  (outcome (work fuel w) = Returned tt ->
   count is_done (trace (work fuel w)) = 1) /\
  worker (run_slot abort (worker (run_slot abort (worker (work fuel w))))) =
  worker (run_slot abort (worker (work fuel w))).
Proof.
  destruct (work_trace frame2numpy tolist env fuel w) as [Hshape Hid].
  assert (Habort : run_slot abort (worker (work fuel w)) =
                   mkRun (Returned tt) (aborted (worker (work fuel w)))
                     [Emit (sig_msg (NotifiedToAbort (w_id w)))]).
  { rewrite <- Hid. reflexivity. }
  rewrite Habort. cbn [outcome worker trace].
  split; [reflexivity|]. split; [reflexivity|].
  split; [unfold MyWidget.after; rewrite fold_left_app; reflexivity|].
  split; [rewrite count_app; cbn; lia|].
  split; [|split; [|reflexivity]].
  - remember (outcome (work fuel w)) as o. remember (trace (work fuel w)) as tr.
    clear Heqo Heqtr Habort Hid.
    destruct Hshape as [e ?|e ? ?|o body p ? ? _ Hall _|body ? ? Hall _];
      rewrite ?count_app,
        ?(@loop_events_count is_done _ loop_event_not_done Hall); cbn; lia.
  - remember (outcome (work fuel w)) as o. remember (trace (work fuel w)) as tr.
    clear Heqo Heqtr Habort Hid.
    destruct Hshape as [e ?|e ? ?|o body p ? ? Ho Hall _|body ? ? Hall _];
      intros Hret; try discriminate; try contradiction.
    rewrite ?count_app,
      ?(@loop_events_count is_done _ loop_event_not_done Hall). reflexivity.
Qed.

(** C10, as the code has it.  In every execution of [work] at most one
    Start message is sent, it carries the manual-driving scenario
    ([drivingMode = -1]), and exactly one Start has been sent before any
    receive and before any command.  Exactly one Start is sent whenever the
    connection opens and the send of Start succeeds. *)
Theorem C10_start_precedes_loop fuel w :
  start_first false (trace (work fuel w)) = true /\
  count is_start (trace (work fuel w)) <= 1 /\
  (forall s, In (Sent (Start s)) (trace (work fuel w)) ->
             s = mkScenario (-1)) /\
  (forall pre e post,
     trace (work fuel w) = pre ++ e :: post ->
     is_recv e = true \/ is_command e = true ->
     count is_start pre = 1) /\
  (connect env (host (w_args w)) (port (w_args w)) = None ->
   start_result env = None ->
   count is_start (trace (work fuel w)) = 1).
Proof.
  destruct (work_trace frame2numpy tolist env fuel w) as [Hshape _].
  remember (outcome (work fuel w)) as o. remember (trace (work fuel w)) as tr.
  clear Heqo Heqtr.
  assert (Hfirst : start_first false tr = true).
  { destruct Hshape as [e ?|e ? ?|o body p ? ? _ Hall _|body ? ? Hall _];
      try reflexivity.
    - cbn. apply start_first_loop, Hall.
    - cbn. rewrite start_first_true_app, (start_first_loop _ Hall). reflexivity. }
  split; [exact Hfirst|].
  assert (Hcount : forall body, forallb loop_event body = true ->
                                count is_start body = 0).
  { intros body. apply loop_events_count, loop_event_not_start. }
  assert (Hin : forall body s, forallb loop_event body = true ->
                               ~ In (Sent (Start s)) body).
  { intros body s Hall Hs.
    pose proof (proj1 (forallb_forall _ _) Hall _ Hs) as Hev. discriminate. }
  split; [|split; [|split]].
  - destruct Hshape as [e ?|e ? ?|o body p ? ? _ Hall _|body ? ? Hall _];
      rewrite ?count_app, ?(Hcount _ Hall); cbn; lia.
  - intros s Hs.
    destruct Hshape as [e ?|e ? ?|o body p ? ? _ Hall _|body ? ? Hall _].
    + cbn in Hs. destruct Hs as [Hs|[]]. discriminate.
    + cbn in Hs. destruct Hs as [Hs|[Hs|[]]]; discriminate.
    + apply in_app_or in Hs as [Hs|Hs]; [|destruct (Hin _ _ Hall Hs)].
      cbn in Hs. destruct Hs as [Hs|[Hs|[Hs|[]]]]; try discriminate.
      injection Hs as <-. reflexivity.
    + apply in_app_or in Hs as [Hs|Hs].
      * cbn in Hs. destruct Hs as [Hs|[Hs|[Hs|[]]]]; try discriminate.
        injection Hs as <-. reflexivity.
      * apply in_app_or in Hs as [Hs|Hs]; [destruct (Hin _ _ Hall Hs)|].
        cbn in Hs. destruct Hs as [Hs|[Hs|[Hs|[]]]]; discriminate.
  - intros pre e post -> He.
    pose proof (start_first_prefix pre e post false Hfirst He) as Hpre.
    cbv iota in Hpre. lia.
  - intros Hconn Hstart.
    destruct Hshape as [e He|e ? He|o body p ? ? _ Hall _|body ? ? Hall _];
      try congruence;
      rewrite ?count_app, ?(Hcount _ Hall); reflexivity.
Qed.

End DriveLoop.

Section Cycles.

Variable Image : Type.
Variable frame2numpy : list byte -> nat * nat -> Exc + Image.
Variable tolist : Image -> ImageList.
Variable env : Env.
Variable messages : nat -> Received.
Variable images : nat -> Image.

Local Abbreviation drive_loop := (drive_loop frame2numpy tolist env).
Local Abbreviation work := (work frame2numpy tolist env).
Local Abbreviation GoodPass := (GoodPass frame2numpy).
Local Abbreviation pass_events := (pass_events tolist).
Local Abbreviation loop_events := (loop_events tolist).

(** [work] up to the test that follows [n] good passes. *)
Lemma work_run n fuel w :
  w_abort w = false ->
  connect env (host (w_args w)) (port (w_args w)) = None ->
  start_result env = None ->
  (forall i, i < n ->
     GoodPass (stoptime_of env) (cycle env i) (messages i) (images i)) ->
  (forall i, S i < n -> abort_queued (cycle env i) = false) ->
  work (n + fuel) w =
  prepend (startup_events env w ++
           loop_events (w_id w) (cycle env) messages images 0 n)
    (and_then (drive_loop fuel (stoptime_of env) n
                 (after_passes (cycle env) n (connected w)))
              (fun _ => shutdown env)).
Proof.
  intros Hflag Hconn Hstart Hgood Hquiet.
  rewrite work_eq, startup_eq, Hconn, Hstart, and_then_returned.
  rewrite (@drive_loop_run Image frame2numpy tolist env messages images
             (stoptime_of env) n fuel (connected w) Hflag Hgood Hquiet).
  unfold prepend. cbn [w_id connected].
  destruct (drive_loop fuel (stoptime_of env) n _) as [[[]|e|] w1 tr1];
    cbn [and_then outcome worker trace].
  - destruct (shutdown env w1) as [o2 w2 tr2].
    cbn [outcome worker trace]. rewrite !app_assoc. reflexivity.
  - rewrite !app_assoc. reflexivity.
  - rewrite !app_assoc. reflexivity.
Qed.

Lemma loop_test_aborted stoptime c w :
  w_abort w = true -> loop_test stoptime c w = false.
Proof. intros H. unfold loop_test. rewrite H. apply andb_false_r. Qed.

Lemma loop_test_late stoptime c w :
  Qltb (guard_time c) stoptime = false -> loop_test stoptime c w = false.
Proof. intros H. unfold loop_test. rewrite H. reflexivity. Qed.

(** C6: when the first test of the loop already finds the stop time
    reached, [work] makes no pass at all (no receive, no decision, no
    notification, no command): after the start message it sends the stop
    message, closes, and emits [sig_done]. *)
Theorem C6_deadline_already_past fuel w :
  connect env (host (w_args w)) (port (w_args w)) = None ->
  start_result env = None ->
  stop_result env = None ->
  (stoptime_of env <= guard_time (cycle env 0))%Q ->
  0 < fuel ->
  work fuel w =
  mkRun (Returned tt) (connected w)
        (startup_events env w ++ shutdown_events (w_id w)) /\
  count in_cycle (trace (work fuel w)) = 0.
Proof.
  intros Hconn Hstart Hstop Hlate Hfuel.
  destruct fuel as [|fuel]; [lia|].
  assert (Hrun : work (S fuel) w =
                 mkRun (Returned tt) (connected w)
                   (startup_events env w ++ shutdown_events (w_id w))).
  { rewrite work_eq, startup_eq, Hconn, Hstart, and_then_returned.
    rewrite drive_loop_exit by (apply loop_test_late, Qltb_ge, Hlate).
    rewrite and_then_returned, shutdown_eq, Hstop. reflexivity. }
  split; [exact Hrun|]. rewrite Hrun. reflexivity.
Qed.

(** C7: cancellation is cooperative.  [abort] sets the flag; once the flag
    is set the loop test fails and no pass starts.  When the abort is run
    by the [processEvents] of pass [k], that pass still completes (its
    receive, notifications and send all happen) and no further pass
    starts, whatever the clock says: the stop message, the close and
    [sig_done] follow. *)
Theorem C7_cooperative_cancellation k fuel w :
  w_abort w = false ->
  connect env (host (w_args w)) (port (w_args w)) = None ->
  start_result env = None ->
  stop_result env = None ->
  (forall i, i < S k ->
     GoodPass (stoptime_of env) (cycle env i) (messages i) (images i)) ->
  (forall i, i < k -> abort_queued (cycle env i) = false) ->
  abort_queued (cycle env k) = true ->
  S k < fuel ->
  w_abort (worker (abort w)) = true /\
  (forall fuel' stoptime i w',
     w_abort w' = true ->
     drive_loop (S fuel') stoptime i w' = mkRun (Returned tt) w' []) /\
  work fuel w =
  mkRun (Returned tt) (aborted (connected w))
    (startup_events env w ++
     loop_events (w_id w) (cycle env) messages images 0 k ++
     Emit (sig_msg (NotifiedToAbort (w_id w))) ::
     pass_events (w_id w) (cycle env k) (messages k) (images k) ++
     shutdown_events (w_id w)).
Proof.
  intros Hflag Hconn Hstart Hstop Hgood Hquiet Habort Hfuel.
  split; [reflexivity|].
  split; [intros; apply drive_loop_exit, loop_test_aborted; assumption|].
  replace fuel with (S k + S (fuel - S k - 1)) by lia.
  rewrite (@work_run (S k) (S (fuel - S k - 1)) w Hflag Hconn Hstart Hgood)
    by (intros i Hi; apply Hquiet; lia).
  cbn [after_passes]. rewrite Habort.
  rewrite drive_loop_exit by (apply loop_test_aborted; reflexivity).
  rewrite and_then_returned, shutdown_eq, Hstop.
  rewrite loop_events_snoc. unfold prepend, abort_events.
  cbn [Nat.add]. rewrite Habort.
  cbn [outcome worker trace w_id aborted connected].
  f_equal. rewrite <- !app_assoc. reflexivity.
Qed.

(** The trace of [work] when [n] good passes are followed by the end of
    the loop: by its test, or by a receive that raises. *)
Lemma work_ends n fuel w :
  w_abort w = false ->
  connect env (host (w_args w)) (port (w_args w)) = None ->
  start_result env = None ->
  (forall i, i < n ->
     GoodPass (stoptime_of env) (cycle env i) (messages i) (images i)) ->
  (forall i, S i < n -> abort_queued (cycle env i) = false) ->
  n < fuel ->
  let wn := after_passes (cycle env) n (connected w) in
  let body := loop_events (w_id w) (cycle env) messages images 0 n in
  (loop_test (stoptime_of env) (cycle env n) wn = false ->
   work fuel w =
   match stop_result env with
   | Some e => mkRun (Raised e) wn (startup_events env w ++ body)
   | None => mkRun (Returned tt) wn
               (startup_events env w ++ body ++ shutdown_events (w_id w))
   end) /\
  (forall e,
     loop_test (stoptime_of env) (cycle env n) wn = true ->
     recv_result (cycle env n) = inl e ->
     work fuel w =
     mkRun (Raised e) (if abort_queued (cycle env n) then aborted wn else wn)
       (startup_events env w ++ body ++ abort_events (w_id w) (cycle env n))).
Proof.
  intros Hflag Hconn Hstart Hgood Hquiet Hfuel wn body.
  replace fuel with (n + S (fuel - n - 1)) by lia.
  rewrite (@work_run n (S (fuel - n - 1)) w Hflag Hconn Hstart Hgood Hquiet).
  fold wn. fold body. split.
  - intros Htest.
    rewrite (@drive_loop_exit Image frame2numpy tolist env _ _ _ _ Htest).
    rewrite and_then_returned, shutdown_eq.
    assert (Hid : w_id wn = w_id w).
    { unfold wn, after_passes. destruct n; [reflexivity|].
      destruct (abort_queued _); reflexivity. }
    rewrite Hid.
    destruct (stop_result env); unfold prepend; cbn [outcome worker trace app];
      rewrite <- ?app_assoc, ?app_nil_r; reflexivity.
  - intros e Htest Hrecv.
    rewrite (@drive_loop_raises Image frame2numpy tolist env _ _ _ _ _
               Htest Hrecv).
    assert (Hid : w_id wn = w_id w).
    { unfold wn, after_passes. destruct n; [reflexivity|].
      destruct (abort_queued _); reflexivity. }
    rewrite Hid. unfold prepend, and_then. cbn [outcome worker trace].
    rewrite <- !app_assoc. reflexivity.
Qed.

Lemma after_passes_cancelled k w :
  abort_queued (cycle env k) = true ->
  w_abort (after_passes (cycle env) (S k) w) = true.
Proof. intros H. cbn. rewrite H. reflexivity. Qed.

Lemma after_passes_quiet n w :
  w_abort w = false ->
  (forall k, n = S k -> abort_queued (cycle env k) = false) ->
  w_abort (after_passes (cycle env) n w) = false.
Proof.
  intros Hflag Hquiet. destruct n as [|k]; [exact Hflag|].
  cbn. rewrite (Hquiet k eq_refl). exact Hflag.
Qed.

(** C4: a run of [N] successful passes, ended by the loop test (stop time
    reached, or abort run during the last pass) or by a receive that
    raises, sends exactly [N] commands and emits [sig_image] exactly [N]
    times; receives, frames and commands alternate strictly, one receive
    before each command. *)
Theorem C4_one_command_per_frame N fuel w :
  w_abort w = false ->
  connect env (host (w_args w)) (port (w_args w)) = None ->
  start_result env = None ->
  (forall i, i < N ->
     GoodPass (stoptime_of env) (cycle env i) (messages i) (images i)) ->
  (forall i, S i < N -> abort_queued (cycle env i) = false) ->
  N < fuel ->
  Qltb (guard_time (cycle env N)) (stoptime_of env) = false \/
  (exists k, N = S k /\ abort_queued (cycle env k) = true) \/
  (exists e, recv_result (cycle env N) = inl e) ->
  count is_command (trace (work fuel w)) = N /\
  count is_frame (trace (work fuel w)) = N /\
  kinds (trace (work fuel w)) = cycles N [KRecv; KFrame; KCommand].
Proof.
  intros Hflag Hconn Hstart Hgood Hquiet Hfuel Hend.
  destruct (@work_ends N fuel w Hflag Hconn Hstart Hgood Hquiet Hfuel)
    as [Hexit Hraise].
  set (body := loop_events (w_id w) (cycle env) messages images 0 N) in *.
  assert (Hc : count is_command body = N) by apply loop_events_commands.
  assert (Hf : count is_frame body = N) by apply loop_events_frames.
  assert (Hk : kinds body = cycles N [KRecv; KFrame; KCommand])
    by apply loop_events_kinds.
  destruct (loop_test (stoptime_of env) (cycle env N)
              (after_passes (cycle env) N (connected w))) eqn:Htest.
  - destruct Hend as [Hlate | [(k & -> & Habort) | (e & Hrecv)]].
    + rewrite loop_test_late in Htest; [discriminate | exact Hlate].
    + rewrite loop_test_aborted in Htest; [discriminate|].
      apply after_passes_cancelled, Habort.
    + rewrite (Hraise e eq_refl Hrecv). cbn [trace].
      rewrite !count_app, !kinds_app, Hc, Hf, Hk. unfold abort_events.
      destruct (abort_queued (cycle env N)); cbn;
        rewrite ?app_nil_r; repeat split; lia.
  - rewrite (Hexit eq_refl).
    destruct (stop_result env); cbn [trace];
      rewrite !count_app, !kinds_app, Hc, Hf, Hk; cbn;
      rewrite ?app_nil_r; repeat split; lia.
Qed.

(** C2, as the code has it.  When the loop ends by its test (stop time
    reached, or abort run during the last pass) [work] goes on to send the
    stop message: if that send succeeds it closes and emits [sig_done]; if
    it raises, [work] ends with that exception, without close and without
    [sig_done].  When a receive raises after [N] successful passes, [N]
    commands have been sent and [N] frames notified, and [work] ends there
    with that exception: no stop message, no close, no [sig_done]. *)
Theorem C2_exit_by_test_shuts_down N fuel w :
  w_abort w = false ->
  connect env (host (w_args w)) (port (w_args w)) = None ->
  start_result env = None ->
  (forall i, i < N ->
     GoodPass (stoptime_of env) (cycle env i) (messages i) (images i)) ->
  (forall i, S i < N -> abort_queued (cycle env i) = false) ->
  N < fuel ->
  (stop_result env = None ->
   Qltb (guard_time (cycle env N)) (stoptime_of env) = false \/
   (exists k, N = S k /\ abort_queued (cycle env k) = true) ->
   outcome (work fuel w) = Returned tt /\
   trace (work fuel w) =
   startup_events env w ++
   loop_events (w_id w) (cycle env) messages images 0 N ++
   shutdown_events (w_id w)) /\
  (forall e,
     stop_result env = Some e ->
     Qltb (guard_time (cycle env N)) (stoptime_of env) = false \/
     (exists k, N = S k /\ abort_queued (cycle env k) = true) ->
     outcome (work fuel w) = Raised e /\
     trace (work fuel w) =
     startup_events env w ++
     loop_events (w_id w) (cycle env) messages images 0 N /\
     count is_stop (trace (work fuel w)) = 0 /\
     count is_closed (trace (work fuel w)) = 0 /\
     count is_done (trace (work fuel w)) = 0) /\
  (forall e,
     Qltb (guard_time (cycle env N)) (stoptime_of env) = true ->
     (forall k, N = S k -> abort_queued (cycle env k) = false) ->
     recv_result (cycle env N) = inl e ->
     outcome (work fuel w) = Raised e /\
     count is_command (trace (work fuel w)) = N /\
     count is_frame (trace (work fuel w)) = N /\
     count is_stop (trace (work fuel w)) = 0 /\
     count is_closed (trace (work fuel w)) = 0 /\
     count is_done (trace (work fuel w)) = 0).
Proof.
  intros Hflag Hconn Hstart Hgood Hquiet Hfuel.
  destruct (@work_ends N fuel w Hflag Hconn Hstart Hgood Hquiet Hfuel)
    as [Hexit Hraise].
  set (body := loop_events (w_id w) (cycle env) messages images 0 N) in *.
  assert (Htest : Qltb (guard_time (cycle env N)) (stoptime_of env) = false \/
                  (exists k, N = S k /\ abort_queued (cycle env k) = true) ->
                  loop_test (stoptime_of env) (cycle env N)
                    (after_passes (cycle env) N (connected w)) = false).
  { intros [Hlate | (k & -> & Habort)].
    - apply loop_test_late, Hlate.
    - apply loop_test_aborted, after_passes_cancelled, Habort. }
  split; [|split].
  - intros Hstop Hend. rewrite Hexit, Hstop; [split; reflexivity|].
    apply Htest, Hend.
  - intros e Hstop Hend. rewrite Hexit, Hstop by (apply Htest, Hend).
    assert (Hall : forallb loop_event body = true) by apply loop_events_all.
    cbn [outcome trace]. rewrite !count_app.
    rewrite (@loop_events_count is_stop _ loop_event_not_stop Hall),
            (@loop_events_count is_closed _ loop_event_not_closed Hall),
            (@loop_events_count is_done _ loop_event_not_done Hall).
    repeat split.
  - intros e Hintime Hlast Hrecv. rewrite (Hraise e); [|
      unfold loop_test; rewrite Hintime, after_passes_quiet;
        [reflexivity | exact Hflag | exact Hlast] | exact Hrecv].
    assert (Hall : forallb loop_event body = true) by apply loop_events_all.
    cbn [outcome trace]. rewrite !count_app.
    unfold body at 1 2. rewrite loop_events_commands, loop_events_frames.
    rewrite (@loop_events_count is_stop _ loop_event_not_stop Hall),
            (@loop_events_count is_closed _ loop_event_not_closed Hall),
            (@loop_events_count is_done _ loop_event_not_done Hall).
    unfold abort_events.
    destruct (abort_queued (cycle env N)); cbn; repeat split; lia.
Qed.

(** C3, as the code has it.  An error raised inside the loop is not caught
    in [work]: [work] ends at the failing operation with that exception
    (no stop message, no close, no [sig_done]); the exception leaves the
    slot and reaches the process-wide hook [trap_exc_during_debug], which
    prints it.  Nothing else is emitted: no signal reports the error. *)
Theorem C3_errors_leave_work fuel w e :
  connect env (host (w_args w)) (port (w_args w)) = None ->
  start_result env = None ->
  outcome (drive_loop fuel (stoptime_of env) 0 (connected w)) = Raised e ->
  outcome (work fuel w) = Raised e /\
  trace (work fuel w) =
  startup_events env w ++
  trace (drive_loop fuel (stoptime_of env) 0 (connected w)) /\
  count is_stop (trace (work fuel w)) = 0 /\
  count is_closed (trace (work fuel w)) = 0 /\
  count is_done (trace (work fuel w)) = 0 /\
  outcome (run_slot (work fuel) w) = Returned tt /\
  trace (run_slot (work fuel) w) = trace (work fuel w) ++ [Printed e].
Proof.
  intros Hconn Hstart Hloop.
  destruct (drive_loop_orderly frame2numpy tolist env (stoptime_of env) fuel 0
              (connected w)) as [p Horder].
  assert (Hrun : work fuel w =
                 mkRun (Raised e)
                   (worker (drive_loop fuel (stoptime_of env) 0 (connected w)))
                   (startup_events env w ++
                    trace (drive_loop fuel (stoptime_of env) 0 (connected w)))).
  { rewrite work_eq, startup_eq, Hconn, Hstart, and_then_returned.
    destruct (drive_loop fuel (stoptime_of env) 0 (connected w)) as [o w1 tr1].
    cbn in Hloop. subst o. reflexivity. }
  pose proof (orderly_events Horder) as Hall.
  unfold run_slot. rewrite Hrun. cbn [outcome trace trap_exc_during_debug log].
  rewrite !count_app.
  rewrite (@loop_events_count is_stop _ loop_event_not_stop Hall),
          (@loop_events_count is_closed _ loop_event_not_closed Hall),
          (@loop_events_count is_done _ loop_event_not_done Hall).
  repeat split.
Qed.

End Cycles.

(** C1 as the specification words it fails.  In a run of three passes
    that all succeed the trace breaks the order receive, decide, send,
    notify; and when the first command cannot be sent the frame has been
    notified all the same, a frame for which no command was issued. *)
Lemma C1_counterexample :
  follows spec_order AtTest
    (trace (work Example.frame2numpy Example.tolist
              Example.three_then_deadline 5 Example.worker0)) = None /\
  let r := work Example.frame2numpy Example.tolist Example.first_send_fails 5
             Example.worker0 in
  outcome r = Raised ConnectionError /\
  count is_frame (trace r) = 1 /\
  count is_command (trace r) = 0.
Proof. vm_compute. repeat split. Qed.

(** C2 as the specification words it fails: frames F1..F3 arrive and the
    fourth receive raises ConnectionError.  Three commands have been sent
    and three frames notified, but [work] ends with the exception: no stop
    message, no close, no [sig_done]. *)
Lemma C2_counterexample :
  let r := work Example.frame2numpy Example.tolist Example.three_then_lost 10
             Example.worker0 in
  outcome r = Raised ConnectionError /\
  count is_command (trace r) = 3 /\
  count is_frame (trace r) = 3 /\
  count is_stop (trace r) = 0 /\
  count is_closed (trace r) = 0 /\
  count is_done (trace r) = 0.
Proof. vm_compute. repeat split. Qed.

(** C3 as the specification words it fails: the ConnectionError of the
    fourth receive is not caught; it leaves [work], the hook prints it, and
    no signal follows the last [sig_image]: the widget still shows the
    start button disabled and the stop button enabled. *)
Lemma C3_counterexample :
  let r := work Example.frame2numpy Example.tolist Example.three_then_lost 10
             Example.worker0 in
  let r' := run_slot (work Example.frame2numpy Example.tolist
                        Example.three_then_lost 10) Example.worker0 in
  let g := fst (MyWidget.start_thread Example.widget Example.args) in
  outcome r = Raised ConnectionError /\
  trace r' = trace r ++ [Printed ConnectionError] /\
  last (trace r) Closed = Sent (Commands 1 0 0) /\
  MyWidget.button_start_enabled
    (MyWidget.after Example.render g (trace r')) = false /\
  MyWidget.button_stop_enabled
    (MyWidget.after Example.render g (trace r')) = true.
Proof. vm_compute. repeat split. Qed.

(** C10 as stated fails: when nobody listens at the address, [Client(...)]
    raises and [work] ends before any Start message is sent. *)
Lemma C10_counterexample :
  let r := work Example.frame2numpy Example.tolist Example.refused 10
             Example.worker0 in
  outcome r = Raised ConnectionError /\
  count is_start (trace r) = 0.
Proof. vm_compute. repeat split. Qed.

(** ** The controller and the command line *)

(** C5: whatever the frame, [Model.run] returns the list
    [[1.0, 0.0, 0.0]]: full throttle, no brake, no steering. *)
Theorem C5_model_run_is_constant (Image : Type) (frame : Image) :
  Model.run frame = [1; 0; 0]%Q /\
  forall (Image' : Type) (frame' : Image'), Model.run frame' = Model.run frame.
Proof. split; reflexivity. Qed.

Lemma find_argument_flag tok a :
  Argparse.find_argument tok = Some a ->
  (Argparse.dest a = Argparse.dest_host /\ (tok = "-l" \/ tok = "--host")) \/
  (Argparse.dest a = Argparse.dest_port /\ (tok = "-p" \/ tok = "--port")).
Proof.
  unfold Argparse.find_argument, Argparse.parser, Argparse.mem. cbn.
  destruct (String.eqb_spec tok "-l") as [->|_].
  { cbn. intros [= <-]. left. split; [reflexivity | left; reflexivity]. }
  destruct (String.eqb_spec tok "--host") as [->|_].
  { cbn. intros [= <-]. left. split; [reflexivity | right; reflexivity]. }
  destruct (String.eqb_spec tok "-p") as [->|_].
  { cbn. intros [= <-]. right. split; [reflexivity | left; reflexivity]. }
  destruct (String.eqb_spec tok "--port") as [->|_].
  { cbn. intros [= <-]. right. split; [reflexivity | right; reflexivity]. }
  cbn. discriminate.
Qed.

Lemma parse_from_typed n : forall argv ns0 ns,
  List.length argv <= n ->
  Argparse.parse_from ns0 argv = Argparse.Parsed ns ->
  host ns = match Argparse.typed_value ["-l"; "--host"] argv with
            | Some v => VStr v
            | None => host ns0
            end /\
  port ns = match Argparse.typed_value ["-p"; "--port"] argv with
            | Some v => VStr v
            | None => port ns0
            end.
Proof.
  induction n as [|n IH]; intros argv ns0 ns Hlen H.
  - destruct argv; [|simpl in Hlen; lia].
    simpl in H. injection H as <-. split; reflexivity.
  - destruct argv as [|tok rest].
    { simpl in H. injection H as <-. split; reflexivity. }
    cbn [Argparse.parse_from] in H.
    destruct (Argparse.mem tok ["-h"; "--help"]); [discriminate|].
    destruct (Argparse.find_argument tok) as [arg|] eqn:Hfind;
      [|destruct (Argparse.dashed tok); discriminate].
    destruct rest as [|value rest']; [discriminate|].
    destruct (Argparse.dashed value); [discriminate|].
    simpl in Hlen.
    destruct (@IH rest' _ ns ltac:(lia) H) as [Hh Hp].
    destruct (find_argument_flag tok Hfind) as [[Hd Htok] | [Hd Htok]];
      rewrite Hd in Hh, Hp; cbn [Argparse.store host port] in Hh, Hp;
      destruct Htok as [-> | ->]; cbn [Argparse.typed_value];
      destruct (Argparse.typed_value ["-l"; "--host"] rest');
      destruct (Argparse.typed_value ["-p"; "--port"] rest');
      cbn; split; assumption.
Qed.

Lemma parse_from_origin n : forall argv ns0 ns,
  List.length argv <= n ->
  Argparse.parse_from ns0 argv = Argparse.Parsed ns ->
  (host ns = host ns0 \/ exists s, In s argv /\ host ns = VStr s) /\
  (port ns = port ns0 \/ exists s, In s argv /\ port ns = VStr s).
Proof.
  induction n as [|n IH]; intros argv ns0 ns Hlen H.
  - destruct argv; [|simpl in Hlen; lia].
    simpl in H. injection H as <-. split; left; reflexivity.
  - destruct argv as [|tok rest].
    { simpl in H. injection H as <-. split; left; reflexivity. }
    cbn [Argparse.parse_from] in H.
    destruct (Argparse.mem tok ["-h"; "--help"]); [discriminate|].
    destruct (Argparse.find_argument tok) as [a|];
      [|destruct (Argparse.dashed tok); discriminate].
    destruct rest as [|value rest']; [discriminate|].
    destruct (Argparse.dashed value); [discriminate|].
    simpl in Hlen.
    destruct (@IH rest' _ ns ltac:(lia) H) as [Hh Hp].
    assert (Hin : forall s, In s rest' -> In s (tok :: value :: rest'))
      by (intros s Hs; right; right; exact Hs).
    destruct (Argparse.dest a); cbn in Hh, Hp; split.
    + destruct Hh as [Hh | (s & Hs & Hh)].
      * right. exists value. split; [right; left; reflexivity | exact Hh].
      * right. exists s. split; [apply Hin, Hs | exact Hh].
    + destruct Hp as [Hp | (s & Hs & Hp)].
      * left. exact Hp.
      * right. exists s. split; [apply Hin, Hs | exact Hp].
    + destruct Hh as [Hh | (s & Hs & Hh)].
      * left. exact Hh.
      * right. exists s. split; [apply Hin, Hs | exact Hh].
    + destruct Hp as [Hp | (s & Hs & Hp)].
      * right. exists value. split; [right; left; reflexivity | exact Hp].
      * right. exists s. split; [apply Hin, Hs | exact Hp].
Qed.

(** C9, as the code has it.  The parser declares two options, host and
    port.  Without them the namespace holds the string "localhost" and the
    integer 8000; a value given on the command line is stored as the string
    it is, for the port too (no conversion to an integer): each entry is
    exactly the value typed last for its option, or the default when none
    was typed.  Whatever the namespace holds is handed unchanged to
    [Client(ip=..., port=...)]. *)
Theorem C9_arguments_reach_the_client argv ns :
  Argparse.parse_args argv = Argparse.Parsed ns ->
  map Argparse.dest Argparse.parser = [Argparse.dest_host; Argparse.dest_port] /\
  Argparse.parse_args [] =
    Argparse.Parsed {| host := VStr "localhost"; port := VInt 8000 |} /\
  host ns = match Argparse.typed_value ["-l"; "--host"] argv with
            | Some v => VStr v
            | None => VStr "localhost"
            end /\
  port ns = match Argparse.typed_value ["-p"; "--port"] argv with
            | Some v => VStr v
            | None => VInt 8000
            end /\
  (host ns = VStr "localhost" \/ exists s, In s argv /\ host ns = VStr s) /\
  (port ns = VInt 8000 \/ exists s, In s argv /\ port ns = VStr s) /\
  forall (Image : Type) (frame2numpy : list byte -> nat * nat -> Exc + Image)
         (tolist : Image -> ImageList) (env : Env) (fuel : nat)
         (Pixmap : Type) (g : MyWidget.t Pixmap),
    connect env (host ns) (port ns) = None ->
    nth_error (trace (work frame2numpy tolist env fuel
                        (snd (MyWidget.start_thread g ns)))) 1 =
    Some (NewClient (host ns) (port ns)).
Proof.
  intros Hparse.
  split; [reflexivity|]. split; [reflexivity|].
  destruct (@parse_from_typed (List.length argv) argv Argparse.defaults ns
              (le_n _) Hparse) as [Hth Htp].
  split; [exact Hth|]. split; [exact Htp|].
  destruct (@parse_from_origin (List.length argv) argv Argparse.defaults ns
              (le_n _) Hparse) as [Hh Hp].
  split; [exact Hh|]. split; [exact Hp|].
  intros Image frame2numpy tolist env fuel Pixmap g Hconn.
  destruct (work_trace frame2numpy tolist env fuel
              (snd (MyWidget.start_thread g ns))) as [Hshape _].
  cbn [MyWidget.start_thread snd] in *.
  remember (outcome _) as o. remember (trace _) as tr. clear Heqo Heqtr.
  destruct Hshape as [e He|e ? He|o body p ? ? _ _ _|body ? ? _ _];
    cbn in *; [congruence | reflexivity ..].
Qed.

(** C9 as stated fails: a port given on the command line is not an
    integer in the namespace, but the string that was typed. *)
Lemma C9_counterexample :
  Argparse.parse_args ["-p"; "9000"] =
    Argparse.Parsed {| host := VStr "localhost"; port := VStr "9000" |} /\
  is_int (VStr "9000") = false.
Proof. split; reflexivity. Qed.

(** * The theorems at work on the example environments *)

Ltac good_pass :=
  split; [reflexivity | reflexivity | eexists; split; reflexivity | reflexivity].

(** A fact about each of the first passes, up to three of them. *)
Ltac first_passes :=
  intros [|[|[|?]]] ?; try solve [good_pass | reflexivity]; exfalso; lia.

Lemma C2_witness :
  (outcome (work Example.frame2numpy Example.tolist Example.three_then_deadline 10 Example.worker0) =
     Returned tt /\
   trace (work Example.frame2numpy Example.tolist Example.three_then_deadline 10 Example.worker0) =
   startup_events Example.three_then_deadline Example.worker0 ++
   loop_events Example.tolist 0 (cycle Example.three_then_deadline)
     Example.messages Example.images 0 3 ++
   shutdown_events 0) /\
  (outcome (work Example.frame2numpy Example.tolist Faults.stop_unsent 10 Example.worker0) =
     Raised ConnectionError /\
   trace (work Example.frame2numpy Example.tolist Faults.stop_unsent 10 Example.worker0) =
   startup_events Faults.stop_unsent Example.worker0 ++
   loop_events Example.tolist 0 (cycle Faults.stop_unsent)
     Example.messages Example.images 0 3 /\
   count is_stop (trace (work Example.frame2numpy Example.tolist Faults.stop_unsent 10 Example.worker0)) = 0 /\
   count is_closed (trace (work Example.frame2numpy Example.tolist Faults.stop_unsent 10 Example.worker0)) = 0 /\
   count is_done (trace (work Example.frame2numpy Example.tolist Faults.stop_unsent 10 Example.worker0)) = 0) /\
  (outcome (work Example.frame2numpy Example.tolist Example.three_then_lost 10 Example.worker0) =
     Raised ConnectionError /\
   count is_command (trace (work Example.frame2numpy Example.tolist Example.three_then_lost 10 Example.worker0)) = 3 /\
   count is_frame (trace (work Example.frame2numpy Example.tolist Example.three_then_lost 10 Example.worker0)) = 3 /\
   count is_stop (trace (work Example.frame2numpy Example.tolist Example.three_then_lost 10 Example.worker0)) = 0 /\
   count is_closed (trace (work Example.frame2numpy Example.tolist Example.three_then_lost 10 Example.worker0)) = 0 /\
   count is_done (trace (work Example.frame2numpy Example.tolist Example.three_then_lost 10 Example.worker0)) = 0).
Proof.
  split; [|split].
  - refine (proj1 (@C2_exit_by_test_shuts_down ImageList Example.frame2numpy
                     Example.tolist Example.three_then_deadline
                     Example.messages Example.images 3 10 Example.worker0
                     _ _ _ _ _ _) _ _).
    + reflexivity.
    + reflexivity.
    + reflexivity.
    + first_passes.
    + first_passes.
    + lia.
    + reflexivity.
    + left. reflexivity.
  - refine (proj1 (proj2 (@C2_exit_by_test_shuts_down ImageList
                            Example.frame2numpy Example.tolist
                            Faults.stop_unsent
                            Example.messages Example.images 3 10
                            Example.worker0 _ _ _ _ _ _))
              ConnectionError _ _).
    + reflexivity.
    + reflexivity.
    + reflexivity.
    + first_passes.
    + first_passes.
    + lia.
    + reflexivity.
    + left. reflexivity.
  - refine (proj2 (proj2 (@C2_exit_by_test_shuts_down ImageList
                            Example.frame2numpy Example.tolist
                            Example.three_then_lost
                            Example.messages Example.images 3 10
                            Example.worker0 _ _ _ _ _ _))
              ConnectionError _ _ _).
    + reflexivity.
    + reflexivity.
    + reflexivity.
    + first_passes.
    + first_passes.
    + lia.
    + reflexivity.
    + intros k Hk. injection Hk as <-. reflexivity.
    + reflexivity.
Defined.

Lemma C3_witness :
  outcome (work Example.frame2numpy Example.tolist Example.three_then_lost 10 Example.worker0) =
    Raised ConnectionError /\
  trace (work Example.frame2numpy Example.tolist Example.three_then_lost 10 Example.worker0) =
    startup_events Example.three_then_lost Example.worker0 ++
    trace (drive_loop Example.frame2numpy Example.tolist
             Example.three_then_lost 10
             (stoptime_of Example.three_then_lost) 0
             (connected Example.worker0)) /\
  count is_stop (trace (work Example.frame2numpy Example.tolist Example.three_then_lost 10 Example.worker0)) = 0 /\
  count is_closed (trace (work Example.frame2numpy Example.tolist Example.three_then_lost 10 Example.worker0)) = 0 /\
  count is_done (trace (work Example.frame2numpy Example.tolist Example.three_then_lost 10 Example.worker0)) = 0 /\
  outcome (run_slot (work Example.frame2numpy Example.tolist Example.three_then_lost 10) Example.worker0) =
    Returned tt /\
  trace (run_slot (work Example.frame2numpy Example.tolist Example.three_then_lost 10) Example.worker0) =
    trace (work Example.frame2numpy Example.tolist Example.three_then_lost 10 Example.worker0) ++
    [Printed ConnectionError].
Proof.
  apply (@C3_errors_leave_work ImageList Example.frame2numpy Example.tolist
           Example.three_then_lost 10 Example.worker0 ConnectionError).
  - reflexivity.
  - reflexivity.
  - vm_compute. reflexivity.
Defined.

Lemma C4_witness :
  count is_command (trace (work Example.frame2numpy Example.tolist Example.three_then_lost 10 Example.worker0)) = 3 /\
  count is_frame (trace (work Example.frame2numpy Example.tolist Example.three_then_lost 10 Example.worker0)) = 3 /\
  kinds (trace (work Example.frame2numpy Example.tolist Example.three_then_lost 10 Example.worker0)) =
    cycles 3 [KRecv; KFrame; KCommand].
Proof.
  apply (@C4_one_command_per_frame ImageList Example.frame2numpy Example.tolist
           Example.three_then_lost Example.messages Example.images 3 10
           Example.worker0).
  - reflexivity.
  - reflexivity.
  - reflexivity.
  - first_passes.
  - first_passes.
  - lia.
  - right. right. exists ConnectionError. reflexivity.
Defined.

Lemma C6_witness :
  work Example.frame2numpy Example.tolist Example.clock_jumped 10 Example.worker0 =
  mkRun (Returned tt) (connected Example.worker0)
        (startup_events Example.clock_jumped Example.worker0 ++
         shutdown_events 0) /\
  count in_cycle (trace (work Example.frame2numpy Example.tolist Example.clock_jumped 10 Example.worker0)) = 0.
Proof.
  apply (@C6_deadline_already_past ImageList Example.frame2numpy Example.tolist
           Example.clock_jumped 10 Example.worker0).
  - reflexivity.
  - reflexivity.
  - reflexivity.
  - vm_compute. discriminate.
  - lia.
Defined.

Lemma C7_witness :
  w_abort (worker (abort Example.worker0)) = true /\
  (forall fuel' stoptime i w',
     w_abort w' = true ->
     drive_loop Example.frame2numpy Example.tolist Example.stop_pressed
       (S fuel') stoptime i w' = mkRun (Returned tt) w' []) /\
  work Example.frame2numpy Example.tolist Example.stop_pressed 10 Example.worker0 =
  mkRun (Returned tt) (aborted (connected Example.worker0))
    (startup_events Example.stop_pressed Example.worker0 ++
     loop_events Example.tolist 0 (cycle Example.stop_pressed)
       Example.messages Example.images 0 2 ++
     Emit (sig_msg (NotifiedToAbort 0)) ::
     pass_events Example.tolist 0 (cycle Example.stop_pressed 2)
       (Example.messages 2) (Example.images 2) ++
     shutdown_events 0).
Proof.
  apply (@C7_cooperative_cancellation ImageList Example.frame2numpy
           Example.tolist Example.stop_pressed Example.messages Example.images
           2 10 Example.worker0).
  - reflexivity.
  - reflexivity.
  - reflexivity.
  - reflexivity.
  - first_passes.
  - first_passes.
  - reflexivity.
  - lia.
Defined.

Lemma C8_witness :
  count is_done
    (trace (work Example.frame2numpy Example.tolist Example.three_then_deadline 10 Example.worker0) ++
     trace (run_slot abort
              (worker (work Example.frame2numpy Example.tolist Example.three_then_deadline 10 Example.worker0))))
  = 1.
Proof.
  destruct (@C8_abort_after_work_is_unseen ImageList Example.frame2numpy
              Example.tolist Example.three_then_deadline ImageList
              Example.render 10 Example.worker0 Example.widget)
    as (_ & _ & _ & Hsame & _ & Hone & _).
  rewrite Hsame. apply Hone. reflexivity.
Defined.

Lemma C9_witness :
  host {| host := VStr "10.0.0.5"; port := VStr "9000" |} = VStr "10.0.0.5" /\
  port {| host := VStr "10.0.0.5"; port := VStr "9000" |} = VStr "9000" /\
  nth_error (trace (work Example.frame2numpy Example.tolist Example.three_then_lost 10
                      (snd (MyWidget.start_thread Example.widget
                              {| host := VStr "10.0.0.5";
                                 port := VStr "9000" |})))) 1 =
  Some (NewClient (VStr "10.0.0.5") (VStr "9000")).
Proof.
  destruct (@C9_arguments_reach_the_client
              ["--host"; "10.0.0.5"; "-p"; "9000"]
              {| host := VStr "10.0.0.5"; port := VStr "9000" |} eq_refl)
    as (_ & _ & Hhost & Hport & _ & _ & Hclient).
  split; [exact Hhost|]. split; [exact Hport|].
  apply (Hclient ImageList Example.frame2numpy Example.tolist
           Example.three_then_lost 10 ImageList Example.widget).
  reflexivity.
Defined.

Lemma C10_witness :
  count is_start (trace (work Example.frame2numpy Example.tolist Example.three_then_lost 10 Example.worker0)) = 1.
Proof.
  destruct (@C10_start_precedes_loop ImageList Example.frame2numpy
              Example.tolist Example.three_then_lost 10 Example.worker0)
    as (_ & _ & _ & _ & Hone).
  apply Hone; reflexivity.
Defined.

(** * More of the program *)

(** ** What a run of work can and cannot do *)

Lemma WorkEvent_same env w w' e :
  w_id w' = w_id w -> w_args w' = w_args w ->
  WorkEvent env w' e -> WorkEvent env w e.
Proof.
  intros Hid Hargs H. destruct H; rewrite ?Hid, ?Hargs; constructor.
Qed.

Section AnyRun.

Variable Image : Type.
Variable frame2numpy : list byte -> nat * nat -> Exc + Image.
Variable tolist : Image -> ImageList.
Variable env : Env.

Local Abbreviation iteration := (iteration frame2numpy tolist).
Local Abbreviation drive_loop := (drive_loop frame2numpy tolist env).
Local Abbreviation work := (work frame2numpy tolist env).

Ltac pass_cases :=
  repeat (cbn;
    match goal with
    | |- context [abort_queued ?c] => destruct (abort_queued c)
    | |- context [recv_result ?c] => destruct (recv_result c)
    | |- context [getitem ?m ?k] => destruct (getitem m k)
    | |- context [frame2numpy ?f ?s] => destruct (frame2numpy f s)
    | |- context [send_result ?c] => destruct (send_result c)
    end).

(** One pass, whatever the environment answers. *)
Lemma iteration_facts c w :
  Forall (WorkEvent env w) (trace (iteration c w)) /\
  w_id (worker (iteration c w)) = w_id w /\
  w_args (worker (iteration c w)) = w_args w /\
  count is_recv (trace (iteration c w)) <= 1 /\
  count is_frame (trace (iteration c w)) <= 1 /\
  count is_command (trace (iteration c w)) <= 1 /\
  (outcome (iteration c w) = Returned tt ->
   w_abort (worker (iteration c w)) = abort_queued c || w_abort w).
Proof.
  unfold iteration, processEvents, recvMessage, abort, bind, and_then.
  pass_cases;
    (split; [repeat (apply Forall_cons || apply Forall_nil); constructor|]);
    cbn; repeat split; try lia; try discriminate.
Qed.

Lemma drive_loop_events stoptime fuel : forall i w,
  Forall (WorkEvent env w) (trace (drive_loop fuel stoptime i w)) /\
  w_id (worker (drive_loop fuel stoptime i w)) = w_id w.
Proof.
  induction fuel as [|fuel IH]; intros i w.
  - split; [constructor | reflexivity].
  - rewrite drive_loop_S.
    destruct (loop_test stoptime (cycle env i) w);
      [|split; [constructor | reflexivity]].
    destruct (iteration_facts (cycle env i) w) as (Hev & Hid & Hargs & _).
    unfold bind.
    destruct (iteration (cycle env i) w) as [[[]|e|] w1 tr1];
      cbn [trace worker] in Hev, Hid, Hargs; try (split; assumption).
    rewrite and_then_returned. cbn [prepend trace worker].
    destruct (IH (S i) w1) as [Hrest Hid1]. split; [|congruence].
    apply Forall_app. split; [exact Hev|].
    eapply Forall_impl; [|exact Hrest].
    intros e. apply WorkEvent_same; assumption.
Qed.

(** The trace of [work] around the trace of its loop. *)
Lemma work_around_loop fuel w :
  exists pre body post,
    trace (work fuel w) = pre ++ body ++ post /\
    Forall (WorkEvent env w) (trace (work fuel w)) /\
    count in_cycle pre = 0 /\ count in_cycle post = 0 /\
    (body = [] \/
     body = trace (drive_loop fuel (stoptime_of env) 0 (connected w))).
Proof.
  rewrite work_eq, startup_eq.
  destruct (connect env _ _) as [e|].
  { cbn [and_then trace].
    exists [Emit (sig_msg (RunningWorker (w_id w) (thread_name env)
                             (thread_id env)))], [], [].
    split; [reflexivity|]. split; [repeat constructor|].
    split; [reflexivity|]. split; [reflexivity|]. left. reflexivity. }
  destruct (start_result env) as [e|].
  { cbn [and_then trace].
    exists [Emit (sig_msg (RunningWorker (w_id w) (thread_name env)
                             (thread_id env)));
            NewClient (host (w_args w)) (port (w_args w))], [], [].
    split; [reflexivity|]. split; [repeat constructor|].
    split; [reflexivity|]. split; [reflexivity|]. left. reflexivity. }
  rewrite and_then_returned.
  destruct (drive_loop_events (stoptime_of env) fuel 0 (connected w))
    as [Hev Hid].
  assert (Hbody : Forall (WorkEvent env w)
                    (trace (drive_loop fuel (stoptime_of env) 0 (connected w)))).
  { eapply Forall_impl; [|exact Hev].
    intros e. apply WorkEvent_same; reflexivity. }
  assert (Hpre : Forall (WorkEvent env w) (startup_events env w))
    by repeat constructor.
  destruct (drive_loop fuel (stoptime_of env) 0 (connected w))
    as [[[]|e|] w1 body]; cbn [trace worker] in *.
  - rewrite and_then_returned, shutdown_eq.
    destruct (stop_result env) as [e|]; cbn [prepend trace outcome worker].
    + exists (startup_events env w), body, [].
      split; [reflexivity|]. split.
      { rewrite app_nil_r. apply Forall_app. split; assumption. }
      split; [reflexivity|]. split; [reflexivity|]. right. reflexivity.
    + exists (startup_events env w), body, (shutdown_events (w_id w1)).
      split; [reflexivity|]. split.
      { apply Forall_app. split; [assumption|].
        apply Forall_app. split; [assumption|].
        rewrite Hid. cbn [w_id connected]. repeat constructor. }
      split; [reflexivity|]. split; [reflexivity|]. right. reflexivity.
  - cbn [and_then prepend trace outcome worker].
    exists (startup_events env w), body, [].
    split; [rewrite app_nil_r; reflexivity|]. split.
    { apply Forall_app. split; assumption. }
    split; [reflexivity|]. split; [reflexivity|]. right. reflexivity.
  - cbn [and_then prepend trace outcome worker].
    exists (startup_events env w), body, [].
    split; [rewrite app_nil_r; reflexivity|]. split.
    { apply Forall_app. split; assumption. }
    split; [reflexivity|]. split; [reflexivity|]. right. reflexivity.
Qed.

Lemma count_none p q tr :
  (forall e, p e = true -> q e = true) -> count q tr = 0 -> count p tr = 0.
Proof.
  intros Hpq. induction tr as [|e tr IH]; [reflexivity|].
  rewrite !count_cons. destruct (p e) eqn:Hp.
  - rewrite (Hpq e Hp). discriminate.
  - intros H. apply IH. destruct (q e); [discriminate | exact H].
Qed.

(** A bound on the loop gives the same bound on [work]. *)
Lemma work_count_le p fuel w n :
  (forall e, p e = true -> in_cycle e = true) ->
  count p (trace (drive_loop fuel (stoptime_of env) 0 (connected w))) <= n ->
  count p (trace (work fuel w)) <= n.
Proof.
  intros Hp Hn.
  destruct (work_around_loop fuel w)
    as (pre & body & post & -> & _ & Hpre & Hpost & Hbody).
  rewrite !count_app, (count_none p in_cycle pre Hp Hpre),
          (count_none p in_cycle post Hp Hpost).
  destruct Hbody as [-> | ->]; cbn; lia.
Qed.

Lemma drive_loop_stops_late p stoptime k :
  (forall c w, count p (trace (iteration c w)) <= 1) ->
  Qltb (guard_time (cycle env k)) stoptime = false ->
  forall fuel i w,
    i <= k -> count p (trace (drive_loop fuel stoptime i w)) <= k - i.
Proof.
  intros Hone Hlate. induction fuel as [|fuel IH]; intros i w Hik.
  - cbn. lia.
  - rewrite drive_loop_S.
    destruct (loop_test stoptime (cycle env i) w) eqn:Htest; [|cbn; lia].
    assert (i <> k).
    { intros ->. rewrite loop_test_late in Htest; [discriminate | exact Hlate]. }
    pose proof (Hone (cycle env i) w) as Hpass. unfold bind.
    destruct (iteration (cycle env i) w) as [[[]|e|] w1 tr1];
      cbn [trace] in Hpass; [|cbn [and_then trace]; lia ..].
    rewrite and_then_returned. cbn [prepend trace]. rewrite count_app.
    specialize (IH (S i) w1 ltac:(lia)). lia.
Qed.

Lemma drive_loop_stops_aborted p stoptime k :
  (forall c w, count p (trace (iteration c w)) <= 1) ->
  abort_queued (cycle env k) = true ->
  forall fuel i w,
    (w_abort w = true -> count p (trace (drive_loop fuel stoptime i w)) = 0) /\
    (i <= k -> count p (trace (drive_loop fuel stoptime i w)) <= S k - i).
Proof.
  intros Hone Hq. induction fuel as [|fuel IH]; intros i w.
  - split; intros; cbn; lia.
  - rewrite drive_loop_S. split.
    + intros Hflag. rewrite loop_test_aborted by exact Hflag. reflexivity.
    + intros Hik.
      destruct (loop_test stoptime (cycle env i) w); [|cbn; lia].
      pose proof (Hone (cycle env i) w) as Hpass.
      destruct (iteration_facts (cycle env i) w) as (_ & _ & _ & _ & _ & _ & Hflag).
      unfold bind.
      destruct (iteration (cycle env i) w) as [[[]|e|] w1 tr1];
        cbn [trace outcome worker] in Hpass, Hflag;
        [|cbn [and_then trace]; lia ..].
      rewrite and_then_returned. cbn [prepend trace]. rewrite count_app.
      destruct (IH (S i) w1) as [Hnone Hle].
      destruct (Nat.eq_dec i k) as [->|Hne].
      * rewrite Hq in Hflag. rewrite (Hnone (Hflag eq_refl)). lia.
      * specialize (Hle ltac:(lia)). lia.
Qed.

(** X1: whatever the environment answers, every command [work] sends is
    [Commands(1.0, 0.0, 0.0)]: the stub's output reaches the client
    unchanged, pass after pass. *)
Theorem X1_every_command_is_full_throttle fuel w throttle brake steering :
  In (Sent (Commands throttle brake steering)) (trace (work fuel w)) ->
  throttle = 1%Q /\ brake = 0%Q /\ steering = 0%Q.
Proof.
  intros Hin.
  destruct (work_around_loop fuel w) as (_ & _ & _ & _ & Hev & _).
  pose proof (proj1 (Forall_forall _ _) Hev _ Hin) as He.
  inversion He. repeat split.
Qed.

(** X2: every signal of a run carries the id of the worker that runs it:
    [sig_step], [sig_done] and both texts of [sig_msg]. *)
Theorem X2_signals_carry_the_worker_id fuel w id :
  (forall now, In (Emit (sig_step id now)) (trace (work fuel w)) ->
               id = w_id w) /\
  (In (Emit (sig_done id)) (trace (work fuel w)) -> id = w_id w) /\
  (In (Emit (sig_msg (NotifiedToAbort id))) (trace (work fuel w)) ->
   id = w_id w) /\
  (forall name tid,
     In (Emit (sig_msg (RunningWorker id name tid))) (trace (work fuel w)) ->
     id = w_id w /\ name = thread_name env /\ tid = thread_id env).
Proof.
  destruct (work_around_loop fuel w) as (_ & _ & _ & _ & Hev & _).
  pose proof (proj1 (Forall_forall _ _) Hev) as Hall.
  repeat split; intros; match goal with H : In _ _ |- _ =>
    apply Hall in H; inversion H; reflexivity end.
Qed.

(** X3: the loop never goes past the first test that finds the stop time
    reached.  If the clock reads the stop time or later at the test of
    pass [k], then at most [k] messages are received, [k] frames notified
    and [k] commands sent, whatever else the environment answers. *)
Theorem X3_no_pass_after_the_stop_time fuel w k :
  (stoptime_of env <= guard_time (cycle env k))%Q ->
  count is_recv (trace (work fuel w)) <= k /\
  count is_frame (trace (work fuel w)) <= k /\
  count is_command (trace (work fuel w)) <= k.
Proof.
  intros Hlate. apply Qltb_ge in Hlate.
  repeat split; apply work_count_le;
    try (intros [? ?|[]| | |[]| |]; cbn; congruence);
    replace k with (k - 0) at 1 by lia;
    apply drive_loop_stops_late; try assumption; try lia;
    intros c w0; apply (iteration_facts c w0).
Qed.

(** X4: the loop never starts a pass after the one in which the abort was
    run.  If an abort is queued for pass [k], then at most [k + 1] messages
    are received, [k + 1] frames notified and [k + 1] commands sent,
    whatever the clock and the client do. *)
Theorem X4_no_pass_after_the_abort fuel w k :
  abort_queued (cycle env k) = true ->
  count is_recv (trace (work fuel w)) <= S k /\
  count is_frame (trace (work fuel w)) <= S k /\
  count is_command (trace (work fuel w)) <= S k.
Proof.
  intros Hq.
  repeat split; apply work_count_le;
    try (intros [? ?|[]| | |[]| |]; cbn; congruence);
    replace (S k) with (S k - 0) at 1 by lia;
    apply drive_loop_stops_aborted; try assumption; try lia;
    intros c w0; apply (iteration_facts c w0).
Qed.

End AnyRun.

(** ** A pass that fails half way *)

Section BrokenPass.

Variable Image : Type.
Variable frame2numpy : list byte -> nat * nat -> Exc + Image.
Variable tolist : Image -> ImageList.
Variable env : Env.
Variable messages : nat -> Received.
Variable images : nat -> Image.

Local Abbreviation drive_loop := (drive_loop frame2numpy tolist env).
Local Abbreviation work := (work frame2numpy tolist env).
Local Abbreviation GoodPass := (GoodPass frame2numpy).
Local Abbreviation loop_events := (loop_events tolist).

Lemma drive_loop_frame_fails fuel stoptime i w m e :
  loop_test stoptime (cycle env i) w = true ->
  recv_result (cycle env i) = inr m ->
  getitem m "frame" = inl e \/
  (exists frame, getitem m "frame" = inr frame /\
                 frame2numpy frame (320, 160)%nat = inl e) ->
  drive_loop (S fuel) stoptime i w =
  mkRun (Raised e) (if abort_queued (cycle env i) then aborted w else w)
        (abort_events (w_id w) (cycle env i) ++ [Recv m]).
Proof.
  intros Htest Hrecv Hframe. rewrite drive_loop_S, Htest.
  unfold iteration, processEvents, recvMessage, abort_events, bind, and_then.
  destruct Hframe as [Hget | (frame & Hget & Hdec)];
    destruct (abort_queued (cycle env i)); cbn; rewrite Hrecv; cbn;
    rewrite Hget; cbn; rewrite ?Hdec; reflexivity.
Qed.

Lemma drive_loop_send_fails fuel stoptime i w m frame image e :
  loop_test stoptime (cycle env i) w = true ->
  recv_result (cycle env i) = inr m ->
  getitem m "frame" = inr frame ->
  frame2numpy frame (320, 160)%nat = inr image ->
  send_result (cycle env i) = Some e ->
  drive_loop (S fuel) stoptime i w =
  mkRun (Raised e) (if abort_queued (cycle env i) then aborted w else w)
        (abort_events (w_id w) (cycle env i) ++
         [Recv m; Decide [1; 0; 0]%Q;
          Emit (sig_step (w_id w) (step_time (cycle env i)));
          Emit (sig_image (tolist image))]).
Proof.
  intros Htest Hrecv Hget Hdec Hsend. rewrite drive_loop_S, Htest.
  unfold iteration, processEvents, recvMessage, abort_events, bind, and_then.
  destruct (abort_queued (cycle env i)); cbn; rewrite Hrecv; cbn;
    rewrite Hget; cbn; rewrite Hdec; cbn; rewrite Hsend; reflexivity.
Qed.

Lemma loop_events_decides id n : forall i,
  count is_decide (loop_events id (cycle env) messages images i n) = n.
Proof.
  induction n as [|n IH]; intros i; [reflexivity|].
  cbn [loop_events]. rewrite !count_app, IH. unfold abort_events.
  destruct (abort_queued (cycle env i)); reflexivity.
Qed.

Lemma loop_events_recvs id n : forall i,
  count is_recv (loop_events id (cycle env) messages images i n) = n.
Proof.
  induction n as [|n IH]; intros i; [reflexivity|].
  cbn [loop_events]. rewrite !count_app, IH. unfold abort_events.
  destruct (abort_queued (cycle env i)); reflexivity.
Qed.

(** The worker at the test of pass [n] lets the loop go on. *)
Lemma loop_test_goes_on n w :
  w_abort w = false ->
  Qltb (guard_time (cycle env n)) (stoptime_of env) = true ->
  (forall k, n = S k -> abort_queued (cycle env k) = false) ->
  loop_test (stoptime_of env) (cycle env n)
    (after_passes (cycle env) n (connected w)) = true.
Proof.
  intros Hflag Htime Hlast. unfold loop_test. rewrite Htime.
  destruct n as [|k]; [cbn; rewrite Hflag; reflexivity|].
  cbn [after_passes]. rewrite (Hlast k eq_refl). cbn. rewrite Hflag.
  reflexivity.
Qed.

(** X5: a message without a usable frame ends the run at once.  After [N]
    good passes, if the next message has no ['frame'] entry (or is [None]),
    or its frame cannot be decoded, [work] raises that very exception right
    after the receive: the controller is not asked, nothing is notified,
    no command is sent for that message, and nothing is shut down. *)
Theorem X5_unusable_message_ends_the_run N fuel w m e :
  w_abort w = false ->
  connect env (host (w_args w)) (port (w_args w)) = None ->
  start_result env = None ->
  (forall i, i < N ->
     GoodPass (stoptime_of env) (cycle env i) (messages i) (images i)) ->
  (forall i, i < N -> abort_queued (cycle env i) = false) ->
  N < fuel ->
  Qltb (guard_time (cycle env N)) (stoptime_of env) = true ->
  recv_result (cycle env N) = inr m ->
  getitem m "frame" = inl e \/
  (exists frame, getitem m "frame" = inr frame /\
                 frame2numpy frame (320, 160)%nat = inl e) ->
  outcome (work fuel w) = Raised e /\
  trace (work fuel w) =
    startup_events env w ++
    loop_events (w_id w) (cycle env) messages images 0 N ++
    abort_events (w_id w) (cycle env N) ++ [Recv m] /\
  count is_recv (trace (work fuel w)) = S N /\
  count is_decide (trace (work fuel w)) = N /\
  count is_frame (trace (work fuel w)) = N /\
  count is_command (trace (work fuel w)) = N /\
  count is_stop (trace (work fuel w)) = 0.
Proof.
  intros Hflag Hconn Hstart Hgood Hquiet Hfuel Htime Hrecv Hframe.
  replace fuel with (N + S (fuel - N - 1)) by lia.
  rewrite (@work_run Image frame2numpy tolist env messages images N
             (S (fuel - N - 1)) w Hflag Hconn Hstart Hgood)
    by (intros i Hi; apply Hquiet; lia).
  rewrite (@drive_loop_frame_fails _ _ _ _ m e
             (@loop_test_goes_on N w Hflag Htime
                ltac:(intros k ->; apply Hquiet; lia)) Hrecv Hframe).
  assert (Hid : w_id (after_passes (cycle env) N (connected w)) = w_id w).
  { destruct N as [|k]; cbn; [reflexivity|].
    destruct (abort_queued (cycle env k)); reflexivity. }
  rewrite Hid. cbn [and_then prepend outcome trace].
  split; [reflexivity|]. split; [rewrite <- !app_assoc; reflexivity|].
  rewrite !count_app, loop_events_recvs, loop_events_decides,
    loop_events_frames, loop_events_commands.
  assert (Hall := @loop_events_all Image tolist env messages images (w_id w) N 0).
  rewrite (@loop_events_count is_stop _ loop_event_not_stop Hall).
  unfold abort_events. destruct (abort_queued (cycle env N)); cbn;
    repeat split; lia.
Qed.

(** X6: a command that cannot be sent leaves its frame notified.  After
    [N] good passes, if the next message is received and decoded but the
    send of its command raises, [work] raises that exception with [N + 1]
    frames notified and only [N] commands sent, and nothing is shut down:
    no stop message, no close, no [sig_done]. *)
Theorem X6_unsent_command_leaves_its_frame_notified N fuel w m frame image e :
  w_abort w = false ->
  connect env (host (w_args w)) (port (w_args w)) = None ->
  start_result env = None ->
  (forall i, i < N ->
     GoodPass (stoptime_of env) (cycle env i) (messages i) (images i)) ->
  (forall i, i < N -> abort_queued (cycle env i) = false) ->
  N < fuel ->
  Qltb (guard_time (cycle env N)) (stoptime_of env) = true ->
  recv_result (cycle env N) = inr m ->
  getitem m "frame" = inr frame ->
  frame2numpy frame (320, 160)%nat = inr image ->
  send_result (cycle env N) = Some e ->
  outcome (work fuel w) = Raised e /\
  last (trace (work fuel w)) Closed = Emit (sig_image (tolist image)) /\
  count is_frame (trace (work fuel w)) = S N /\
  count is_command (trace (work fuel w)) = N /\
  count is_stop (trace (work fuel w)) = 0 /\
  count is_closed (trace (work fuel w)) = 0 /\
  count is_done (trace (work fuel w)) = 0.
Proof.
  intros Hflag Hconn Hstart Hgood Hquiet Hfuel Htime Hrecv Hget Hdec Hsend.
  replace fuel with (N + S (fuel - N - 1)) by lia.
  rewrite (@work_run Image frame2numpy tolist env messages images N
             (S (fuel - N - 1)) w Hflag Hconn Hstart Hgood)
    by (intros i Hi; apply Hquiet; lia).
  rewrite (@drive_loop_send_fails _ _ _ _ m frame image e
             (@loop_test_goes_on N w Hflag Htime
                ltac:(intros k ->; apply Hquiet; lia)) Hrecv Hget Hdec Hsend).
  assert (Hid : w_id (after_passes (cycle env) N (connected w)) = w_id w).
  { destruct N as [|k]; cbn; [reflexivity|].
    destruct (abort_queued (cycle env k)); reflexivity. }
  rewrite Hid. cbn [and_then prepend outcome trace].
  split; [reflexivity|]. split.
  { rewrite !app_assoc.
    change [Recv m; Decide [1; 0; 0]%Q;
            Emit (sig_step (w_id w) (step_time (cycle env N)));
            Emit (sig_image (tolist image))]
      with ([Recv m; Decide [1; 0; 0]%Q;
             Emit (sig_step (w_id w) (step_time (cycle env N)))] ++
            [Emit (sig_image (tolist image))]).
    rewrite !app_assoc. apply last_last. }
  rewrite !count_app, loop_events_frames, loop_events_commands.
  assert (Hall := @loop_events_all Image tolist env messages images (w_id w) N 0).
  rewrite (@loop_events_count is_stop _ loop_event_not_stop Hall),
          (@loop_events_count is_closed _ loop_event_not_closed Hall),
          (@loop_events_count is_done _ loop_event_not_done Hall).
  unfold abort_events. destruct (abort_queued (cycle env N)); cbn;
    repeat split; lia.
Qed.

End BrokenPass.

(** ** How a run ends, and what the widget shows then *)

Lemma loop_event_not_printed e : loop_event e = true -> is_printed e = false.
Proof. destruct e as [? ?|[]| | |[]| |]; cbn; congruence. Qed.

Section WidgetFacts.

Variable Pixmap : Type.
Variable render : ImageList -> option Pixmap.

Lemma after_app (g : MyWidget.t Pixmap) tr1 tr2 :
  MyWidget.after render g (tr1 ++ tr2) =
  MyWidget.after render (MyWidget.after render g tr1) tr2.
Proof. unfold MyWidget.after. apply fold_left_app. Qed.

(** The loop does not touch the buttons. *)
Lemma after_loop_buttons body : forall g : MyWidget.t Pixmap,
  forallb loop_event body = true ->
  MyWidget.button_start_enabled (MyWidget.after render g body) =
    MyWidget.button_start_enabled g /\
  MyWidget.button_stop_enabled (MyWidget.after render g body) =
    MyWidget.button_stop_enabled g.
Proof.
  induction body as [|e body IH]; intros g Hall; [split; reflexivity|].
  simpl in Hall. apply andb_true_iff in Hall as [He Hall].
  change (MyWidget.after render g (e :: body))
    with (MyWidget.after render (MyWidget.handle render g e) body).
  destruct (IH (MyWidget.handle render g e) Hall) as [-> ->].
  destruct e as [? ?|[]| | |[]| |]; cbn in He |- *;
    try discriminate; try (split; reflexivity).
  unfold MyWidget.on_image. destruct (render image); split; reflexivity.
Qed.

End WidgetFacts.

Section RunsAndWidget.

Variable Image : Type.
Variable frame2numpy : list byte -> nat * nat -> Exc + Image.
Variable tolist : Image -> ImageList.
Variable env : Env.
Variable Pixmap : Type.
Variable render : ImageList -> option Pixmap.

Local Abbreviation work := (work frame2numpy tolist env).

(** X7: a run of [work] that ends, ends in exactly one of two ways: with
    [sig_done], or with an exception printed by the hook.  The slot itself
    never lets the exception out. *)
Theorem X7_done_or_printed fuel w :
  outcome (work fuel w) <> OutOfFuel ->
  outcome (run_slot (work fuel) w) = Returned tt /\
  count is_done (trace (run_slot (work fuel) w)) +
  count is_printed (trace (run_slot (work fuel) w)) = 1 /\
  (count is_done (trace (run_slot (work fuel) w)) = 1 <->
   outcome (work fuel w) = Returned tt).
Proof.
  intros Hends.
  destruct (work_trace frame2numpy tolist env fuel w) as [Hshape _].
  unfold run_slot.
  destruct (work fuel w) as [o w1 tr]. cbn [outcome trace] in *.
  destruct Hshape as [e ?|e ? ?|o body p ? ? Ho Hall _|body ? ? Hall _].
  - cbn. repeat split; try lia; discriminate.
  - cbn. repeat split; try lia; discriminate.
  - destruct o as [[]|e|]; try contradiction.
    cbn [trap_exc_during_debug log outcome trace].
    rewrite !count_app,
      (@loop_events_count is_done _ loop_event_not_done Hall),
      (@loop_events_count is_printed _ loop_event_not_printed Hall).
    cbn. repeat split; try lia; discriminate.
  - cbn [outcome trace].
    rewrite !count_app,
      (@loop_events_count is_done _ loop_event_not_done Hall),
      (@loop_events_count is_printed _ loop_event_not_printed Hall).
    cbn. repeat split; lia.
Qed.

(** X8: the buttons after a run.  Once the signals of a finished run have
    been delivered to the widget that started it, the start button is
    enabled again and the stop button disabled if [work] returned; if
    [work] raised, the buttons stay as [start_thread] left them: start
    disabled, stop enabled. *)
Theorem X8_buttons_after_a_run fuel w (g : MyWidget.t Pixmap) args :
  outcome (work fuel w) <> OutOfFuel ->
  let g' := MyWidget.after render (fst (MyWidget.start_thread g args))
              (trace (run_slot (work fuel) w)) in
  (outcome (work fuel w) = Returned tt ->
   MyWidget.button_start_enabled g' = true /\
   MyWidget.button_stop_enabled g' = false) /\
  (forall e, outcome (work fuel w) = Raised e ->
   MyWidget.button_start_enabled g' = false /\
   MyWidget.button_stop_enabled g' = true).
Proof.
  intros Hends.
  destruct (work_trace frame2numpy tolist env fuel w) as [Hshape _].
  unfold run_slot.
  destruct (work fuel w) as [o w1 tr]. cbn [outcome trace] in *.
  destruct Hshape as [e ?|e ? ?|o body p ? ? Ho Hall _|body ? ? Hall _].
  - cbn. split; [discriminate | intros; split; reflexivity].
  - cbn. split; [discriminate | intros; split; reflexivity].
  - destruct o as [[]|e|]; try contradiction.
    cbn [trap_exc_during_debug log outcome trace].
    split; [discriminate|]. intros _ _.
    rewrite !after_app.
    change (MyWidget.after render ?x [Printed e]) with x.
    destruct (@after_loop_buttons Pixmap render body
                (MyWidget.after render (fst (MyWidget.start_thread g args))
                   (startup_events env w)) Hall) as [-> ->].
    split; reflexivity.
  - cbn [outcome trace]. split; [|discriminate]. intros _.
    rewrite !after_app. cbn. split; reflexivity.
Qed.

(** X12: without a connection there is no traffic.  If [Client(...)]
    raises, or the send of Start does, [work] raises that exception and
    nothing has been sent or received: no Start, no command, no stop
    message, no close, and no [sig_done]. *)
Theorem X12_no_traffic_without_connection fuel w e :
  connect env (host (w_args w)) (port (w_args w)) = Some e \/
  (connect env (host (w_args w)) (port (w_args w)) = None /\
   start_result env = Some e) ->
  outcome (work fuel w) = Raised e /\
  count is_start (trace (work fuel w)) = 0 /\
  count in_cycle (trace (work fuel w)) = 0 /\
  count is_stop (trace (work fuel w)) = 0 /\
  count is_closed (trace (work fuel w)) = 0 /\
  count is_done (trace (work fuel w)) = 0.
Proof.
  intros [Hconn | [Hconn Hstart]];
    rewrite work_eq, startup_eq, Hconn, ?Hstart; cbn; repeat split.
Qed.

End RunsAndWidget.

Section LastFrame.

Variable Image : Type.
Variable frame2numpy : list byte -> nat * nat -> Exc + Image.
Variable tolist : Image -> ImageList.
Variable env : Env.
Variable messages : nat -> Received.
Variable images : nat -> Image.
Variable Pixmap : Type.
Variable render : ImageList -> option Pixmap.

Local Abbreviation work := (work frame2numpy tolist env).
Local Abbreviation GoodPass := (GoodPass frame2numpy).

(** X9: the label shows the last frame.  After [k + 1] good passes ended
    by the loop test (stop time reached, or abort run during the last
    pass), if [on_image] can build the pixmap of the last frame, the widget
    that has been given the signals of the run has that pixmap on its
    label, whether or not the stop message could be sent. *)
Theorem X9_label_shows_the_last_frame k fuel w (g : MyWidget.t Pixmap) pix :
  w_abort w = false ->
  connect env (host (w_args w)) (port (w_args w)) = None ->
  start_result env = None ->
  (forall i, i < S k ->
     GoodPass (stoptime_of env) (cycle env i) (messages i) (images i)) ->
  (forall i, i < k -> abort_queued (cycle env i) = false) ->
  S k < fuel ->
  Qltb (guard_time (cycle env (S k))) (stoptime_of env) = false \/
  abort_queued (cycle env k) = true ->
  render (tolist (images k)) = Some pix ->
  MyWidget.label (MyWidget.after render g (trace (work fuel w))) = Some pix.
Proof.
  intros Hflag Hconn Hstart Hgood Hquiet Hfuel Hend Hrender.
  destruct (@work_ends Image frame2numpy tolist env messages images (S k)
              fuel w Hflag Hconn Hstart Hgood
              ltac:(intros i Hi; apply Hquiet; lia) Hfuel) as [Hexit _].
  rewrite Hexit.
  - rewrite loop_events_snoc.
    destruct (stop_result env); cbn [trace];
      rewrite ?app_assoc, !after_app;
      unfold MyWidget.after at 1 2; cbn; unfold MyWidget.on_image;
      rewrite Hrender; reflexivity.
  - destruct Hend as [Hlate | Habort].
    + apply loop_test_late, Hlate.
    + apply loop_test_aborted.
      apply (@after_passes_cancelled env k (connected w) Habort).
Qed.

End LastFrame.

(** ** The command line, option by option *)

Lemma parse_from_app n : forall a ns0 ns1 b,
  List.length a <= n ->
  Argparse.parse_from ns0 a = Argparse.Parsed ns1 ->
  Argparse.parse_from ns0 (a ++ b) = Argparse.parse_from ns1 b.
Proof.
  induction n as [|n IH]; intros a ns0 ns1 b Hlen H.
  - destruct a; [|simpl in Hlen; lia].
    simpl in H. injection H as <-. reflexivity.
  - destruct a as [|tok rest].
    { simpl in H. injection H as <-. reflexivity. }
    cbn [Argparse.parse_from app] in H |- *.
    destruct (Argparse.mem tok ["-h"; "--help"]); [discriminate|].
    destruct (Argparse.find_argument tok) as [arg|];
      [|destruct (Argparse.dashed tok); discriminate].
    destruct rest as [|value rest']; [discriminate|].
    cbn [app]. destruct (Argparse.dashed value); [discriminate|].
    simpl in Hlen. apply IH; [lia | exact H].
Qed.


(** X13: options are read from left to right and a later one overrides.
    If a command line parses, anything added after it is parsed from the
    namespace reached so far: a further [-p v] or [--host v] replaces only
    that entry, a further [-h] exits, and a further option that lacks its
    value exits. *)
Theorem X13_later_options_override argv ns :
  Argparse.parse_args argv = Argparse.Parsed ns ->
  (forall more,
     Argparse.parse_args (argv ++ more) = Argparse.parse_from ns more) /\
  (forall v, Argparse.dashed v = false ->
     Argparse.parse_args (argv ++ ["-p"; v]) =
       Argparse.Parsed {| host := host ns; port := VStr v |} /\
     Argparse.parse_args (argv ++ ["--host"; v]) =
       Argparse.Parsed {| host := VStr v; port := port ns |}) /\
  Argparse.parse_args (argv ++ ["-h"]) = Argparse.Exits /\
  Argparse.parse_args (argv ++ ["--port"]) = Argparse.Exits.
Proof.
  intros Hparse.
  assert (Happ : forall more,
             Argparse.parse_args (argv ++ more) = Argparse.parse_from ns more).
  { intros more. apply (@parse_from_app (List.length argv)); [lia | exact Hparse]. }
  split; [exact Happ|]. split; [|split].
  - intros v Hv. rewrite !Happ. cbn. rewrite Hv. split; reflexivity.
  - rewrite Happ. reflexivity.
  - rewrite Happ. reflexivity.
Qed.


(** ** Shutting down and ending *)

Section Ending.

Variable Image : Type.
Variable frame2numpy : list byte -> nat * nat -> Exc + Image.
Variable tolist : Image -> ImageList.
Variable env : Env.

Local Abbreviation iteration := (iteration frame2numpy tolist).
Local Abbreviation drive_loop := (drive_loop frame2numpy tolist env).
Local Abbreviation work := (work frame2numpy tolist env).

(** X15: the shutdown is all or nothing.  In every run the stop message,
    the close and [sig_done] come together: each occurs once when [work]
    returns and not at all otherwise (a loop that raised, a stop message
    that could not be sent). *)
Theorem X15_shutdown_is_all_or_nothing fuel w :
  count is_stop (trace (work fuel w)) = count is_closed (trace (work fuel w)) /\
  count is_closed (trace (work fuel w)) = count is_done (trace (work fuel w)) /\
  (outcome (work fuel w) = Returned tt ->
   count is_done (trace (work fuel w)) = 1) /\
  (outcome (work fuel w) <> Returned tt ->
   count is_done (trace (work fuel w)) = 0).
Proof.
  destruct (work_trace frame2numpy tolist env fuel w) as [Hshape _].
  remember (outcome (work fuel w)) as o. remember (trace (work fuel w)) as tr.
  clear Heqo Heqtr.
  destruct Hshape as [e ?|e ? ?|o body p ? ? Ho Hall _|body ? ? Hall _];
    rewrite ?count_app,
      ?(@loop_events_count is_stop _ loop_event_not_stop Hall),
      ?(@loop_events_count is_closed _ loop_event_not_closed Hall),
      ?(@loop_events_count is_done _ loop_event_not_done Hall);
    cbn; repeat split; try reflexivity; try discriminate; try contradiction;
    intros Hne; exfalso; apply Hne; reflexivity.
Qed.

Lemma iteration_ends c w : outcome (iteration c w) <> OutOfFuel.
Proof.
  unfold iteration, processEvents, recvMessage, abort, bind, and_then.
  repeat (cbn;
    match goal with
    | |- context [abort_queued ?c] => destruct (abort_queued c)
    | |- context [recv_result ?c] => destruct (recv_result c)
    | |- context [getitem ?m ?k] => destruct (getitem m k)
    | |- context [frame2numpy ?f ?s] => destruct (frame2numpy f s)
    | |- context [send_result ?c] => destruct (send_result c)
    end); discriminate.
Qed.

Lemma drive_loop_ends_late stoptime k :
  Qltb (guard_time (cycle env k)) stoptime = false ->
  forall fuel i w,
    i <= k -> k - i < fuel ->
    outcome (drive_loop fuel stoptime i w) <> OutOfFuel.
Proof.
  intros Hlate. induction fuel as [|fuel IH]; intros i w Hik Hfuel; [lia|].
  rewrite drive_loop_S.
  destruct (loop_test stoptime (cycle env i) w) eqn:Htest; [|discriminate].
  assert (i <> k).
  { intros ->. rewrite loop_test_late in Htest; [discriminate | exact Hlate]. }
  pose proof (iteration_ends (cycle env i) w) as Hpass. unfold bind.
  destruct (iteration (cycle env i) w) as [[[]|e|] w1 tr1];
    cbn [outcome] in Hpass; [| discriminate | contradiction].
  rewrite and_then_returned. cbn [prepend outcome].
  apply IH; lia.
Qed.

Lemma drive_loop_ends_aborted stoptime k :
  abort_queued (cycle env k) = true ->
  forall fuel i w,
    (w_abort w = true -> 0 < fuel ->
     outcome (drive_loop fuel stoptime i w) <> OutOfFuel) /\
    (i <= k -> S k - i < fuel ->
     outcome (drive_loop fuel stoptime i w) <> OutOfFuel).
Proof.
  intros Hq. induction fuel as [|fuel IH]; intros i w; [split; intros; lia|].
  rewrite drive_loop_S. split.
  - intros Hflag _. rewrite loop_test_aborted by exact Hflag. discriminate.
  - intros Hik Hfuel.
    destruct (loop_test stoptime (cycle env i) w); [|discriminate].
    pose proof (iteration_ends (cycle env i) w) as Hpass.
    destruct (iteration_facts frame2numpy tolist env (cycle env i) w)
      as (_ & _ & _ & _ & _ & _ & Hflag).
    unfold bind.
    destruct (iteration (cycle env i) w) as [[[]|e|] w1 tr1];
      cbn [outcome worker] in Hpass, Hflag; [| discriminate | contradiction].
    rewrite and_then_returned. cbn [prepend outcome].
    destruct (IH (S i) w1) as [Hset Hle].
    destruct (Nat.eq_dec i k) as [->|Hne].
    + apply Hset; [|lia]. rewrite Hq in Hflag. apply Hflag. reflexivity.
    + apply Hle; lia.
Qed.

(** X16: the run ends.  If the clock reads the stop time or later at the
    test of pass [k], or an abort is queued for pass [k], then [work] ends
    (it returns or raises) within [k + 1] passes, whatever else the
    environment answers. *)
Theorem X16_the_run_ends fuel w k :
  (stoptime_of env <= guard_time (cycle env k))%Q \/
  abort_queued (cycle env k) = true ->
  S k < fuel ->
  outcome (work fuel w) <> OutOfFuel.
Proof.
  intros Hend Hfuel.
  assert (Hloop : outcome (drive_loop fuel (stoptime_of env) 0 (connected w))
                  <> OutOfFuel).
  { destruct Hend as [Hlate | Hq].
    - apply (@drive_loop_ends_late (stoptime_of env) k); [|lia|lia].
      apply Qltb_ge, Hlate.
    - apply (@drive_loop_ends_aborted (stoptime_of env) k Hq); lia. }
  rewrite work_eq, startup_eq.
  destruct (connect env _ _); [discriminate|].
  destruct (start_result env); [discriminate|].
  rewrite and_then_returned. cbn [prepend outcome].
  destruct (drive_loop fuel (stoptime_of env) 0 (connected w))
    as [[[]|e|] w1 tr1]; cbn [outcome] in Hloop;
    [| discriminate | contradiction].
  rewrite and_then_returned, shutdown_eq.
  destruct (stop_result env); discriminate.
Qed.

End Ending.

(** ** The further properties on the example environments *)

Lemma X1_witness :
  In (Sent (Commands 1 0 0))
     (trace (work Example.frame2numpy Example.tolist Example.three_then_lost 10 Example.worker0)) /\
  (1 = 1 /\ 0 = 0 /\ 0 = 0)%Q.
Proof.
  assert (Hin : In (Sent (Commands 1 0 0))
                  (trace (work Example.frame2numpy Example.tolist Example.three_then_lost 10 Example.worker0))).
  { vm_compute. do 7 right. left. reflexivity. }
  split; [exact Hin|].
  exact (@X1_every_command_is_full_throttle ImageList Example.frame2numpy
           Example.tolist Example.three_then_lost 10 Example.worker0
           1%Q 0%Q 0%Q Hin).
Defined.

Lemma X3_witness :
  count is_recv (trace (work Example.frame2numpy Example.tolist Example.three_then_deadline 10 Example.worker0)) <= 3 /\
  count is_frame (trace (work Example.frame2numpy Example.tolist Example.three_then_deadline 10 Example.worker0)) <= 3 /\
  count is_command (trace (work Example.frame2numpy Example.tolist Example.three_then_deadline 10 Example.worker0)) <= 3.
Proof.
  apply (@X3_no_pass_after_the_stop_time ImageList Example.frame2numpy
           Example.tolist Example.three_then_deadline 10 Example.worker0 3).
  vm_compute. discriminate.
Defined.

Lemma X4_witness :
  count is_recv (trace (work Example.frame2numpy Example.tolist Example.stop_pressed 10 Example.worker0)) <= 3 /\
  count is_frame (trace (work Example.frame2numpy Example.tolist Example.stop_pressed 10 Example.worker0)) <= 3 /\
  count is_command (trace (work Example.frame2numpy Example.tolist Example.stop_pressed 10 Example.worker0)) <= 3.
Proof.
  apply (@X4_no_pass_after_the_abort ImageList Example.frame2numpy
           Example.tolist Example.stop_pressed 10 Example.worker0 2).
  reflexivity.
Defined.

Lemma X5_witness :
  outcome (work Example.frame2numpy Example.tolist Faults.frame_missing 10 Example.worker0) =
    Raised (KeyError "frame") /\
  trace (work Example.frame2numpy Example.tolist Faults.frame_missing 10 Example.worker0) =
    startup_events Faults.frame_missing Example.worker0 ++
    loop_events Example.tolist 0 (cycle Faults.frame_missing)
      Example.messages Example.images 0 2 ++
    abort_events 0 (cycle Faults.frame_missing 2) ++ [Recv Faults.telemetry] /\
  count is_recv (trace (work Example.frame2numpy Example.tolist Faults.frame_missing 10 Example.worker0)) = 3 /\
  count is_decide (trace (work Example.frame2numpy Example.tolist Faults.frame_missing 10 Example.worker0)) = 2 /\
  count is_frame (trace (work Example.frame2numpy Example.tolist Faults.frame_missing 10 Example.worker0)) = 2 /\
  count is_command (trace (work Example.frame2numpy Example.tolist Faults.frame_missing 10 Example.worker0)) = 2 /\
  count is_stop (trace (work Example.frame2numpy Example.tolist Faults.frame_missing 10 Example.worker0)) = 0.
Proof.
  apply (@X5_unusable_message_ends_the_run ImageList Example.frame2numpy
           Example.tolist Faults.frame_missing Example.messages Example.images
           2 10 Example.worker0 Faults.telemetry (KeyError "frame")).
  - reflexivity.
  - reflexivity.
  - reflexivity.
  - first_passes.
  - first_passes.
  - lia.
  - reflexivity.
  - reflexivity.
  - left. reflexivity.
Defined.

Lemma X6_witness :
  outcome (work Example.frame2numpy Example.tolist Example.first_send_fails 10 Example.worker0) =
    Raised ConnectionError /\
  last (trace (work Example.frame2numpy Example.tolist Example.first_send_fails 10 Example.worker0)) Closed =
    Emit (sig_image (Example.tolist (Example.image x01))) /\
  count is_frame (trace (work Example.frame2numpy Example.tolist Example.first_send_fails 10 Example.worker0)) = 1 /\
  count is_command (trace (work Example.frame2numpy Example.tolist Example.first_send_fails 10 Example.worker0)) = 0 /\
  count is_stop (trace (work Example.frame2numpy Example.tolist Example.first_send_fails 10 Example.worker0)) = 0 /\
  count is_closed (trace (work Example.frame2numpy Example.tolist Example.first_send_fails 10 Example.worker0)) = 0 /\
  count is_done (trace (work Example.frame2numpy Example.tolist Example.first_send_fails 10 Example.worker0)) = 0.
Proof.
  apply (@X6_unsent_command_leaves_its_frame_notified ImageList
           Example.frame2numpy Example.tolist Example.first_send_fails
           Example.messages Example.images 0 10 Example.worker0
           (Example.message x01) [x01] (Example.image x01) ConnectionError).
  - reflexivity.
  - reflexivity.
  - reflexivity.
  - first_passes.
  - first_passes.
  - lia.
  - reflexivity.
  - reflexivity.
  - reflexivity.
  - reflexivity.
  - reflexivity.
Defined.

Lemma X7_witness :
  outcome (run_slot (work Example.frame2numpy Example.tolist Example.three_then_lost 10) Example.worker0) =
    Returned tt /\
  count is_done (trace (run_slot (work Example.frame2numpy Example.tolist Example.three_then_lost 10)
                          Example.worker0)) +
  count is_printed (trace (run_slot (work Example.frame2numpy Example.tolist Example.three_then_lost 10)
                             Example.worker0)) = 1 /\
  (count is_done (trace (run_slot (work Example.frame2numpy Example.tolist Example.three_then_lost 10)
                           Example.worker0)) = 1 <->
   outcome (work Example.frame2numpy Example.tolist Example.three_then_lost 10 Example.worker0) = Returned tt).
Proof.
  apply (@X7_done_or_printed ImageList Example.frame2numpy Example.tolist
           Example.three_then_lost 10 Example.worker0).
  vm_compute. discriminate.
Defined.

Lemma X8_witness :
  MyWidget.button_start_enabled
    (MyWidget.after Example.render
       (fst (MyWidget.start_thread Example.widget Example.args))
       (trace (run_slot (work Example.frame2numpy Example.tolist Example.three_then_deadline 10)
                 Example.worker0))) = true /\
  MyWidget.button_stop_enabled
    (MyWidget.after Example.render
       (fst (MyWidget.start_thread Example.widget Example.args))
       (trace (run_slot (work Example.frame2numpy Example.tolist Example.three_then_deadline 10)
                 Example.worker0))) = false.
Proof.
  apply (@X8_buttons_after_a_run ImageList Example.frame2numpy Example.tolist
           Example.three_then_deadline ImageList Example.render 10
           Example.worker0 Example.widget Example.args).
  - vm_compute. discriminate.
  - reflexivity.
Defined.

Lemma X9_witness :
  MyWidget.label
    (MyWidget.after Example.render Example.widget
       (trace (work Camera.frame2numpy Example.tolist Camera.stop_pressed 10
                 Example.worker0))) =
  Some Camera.pixmap.
Proof.
  apply (@X9_label_shows_the_last_frame ImageList Camera.frame2numpy
           Example.tolist Camera.stop_pressed Camera.messages Camera.images
           ImageList Example.render 2 10 Example.worker0 Example.widget
           Camera.pixmap).
  - reflexivity.
  - reflexivity.
  - reflexivity.
  - first_passes.
  - first_passes.
  - lia.
  - right. reflexivity.
  - reflexivity.
Defined.

Lemma X12_witness :
  outcome (work Example.frame2numpy Example.tolist Example.refused 10 Example.worker0) = Raised ConnectionError /\
  count is_start (trace (work Example.frame2numpy Example.tolist Example.refused 10 Example.worker0)) = 0 /\
  count in_cycle (trace (work Example.frame2numpy Example.tolist Example.refused 10 Example.worker0)) = 0 /\
  count is_stop (trace (work Example.frame2numpy Example.tolist Example.refused 10 Example.worker0)) = 0 /\
  count is_closed (trace (work Example.frame2numpy Example.tolist Example.refused 10 Example.worker0)) = 0 /\
  count is_done (trace (work Example.frame2numpy Example.tolist Example.refused 10 Example.worker0)) = 0.
Proof.
  apply (@X12_no_traffic_without_connection ImageList Example.frame2numpy
           Example.tolist Example.refused 10 Example.worker0 ConnectionError).
  left. reflexivity.
Defined.

Lemma X13_witness :
  Argparse.parse_args (["-p"; "9000"] ++ ["-p"; "9001"]) =
    Argparse.Parsed {| host := VStr "localhost"; port := VStr "9001" |} /\
  Argparse.parse_args (["-p"; "9000"] ++ ["--host"; "10.0.0.5"]) =
    Argparse.Parsed {| host := VStr "10.0.0.5"; port := VStr "9000" |}.
Proof.
  destruct (@X13_later_options_override ["-p"; "9000"]
              {| host := VStr "localhost"; port := VStr "9000" |} eq_refl)
    as (_ & Hover & _).
  destruct (Hover "9001" eq_refl) as [Hport _].
  destruct (Hover "10.0.0.5" eq_refl) as [_ Hhost].
  split; [exact Hport | exact Hhost].
Defined.


Lemma X16_witness :
  outcome (work Example.frame2numpy Example.tolist Example.stop_pressed 10 Example.worker0) <> OutOfFuel.
Proof.
  apply (@X16_the_run_ends ImageList Example.frame2numpy Example.tolist
           Example.stop_pressed 10 Example.worker0 2).
  - right. reflexivity.
  - lia.
Defined.
